(** * backend/server.js: the authentication and chat-relay service

    A shallow embedding of the Express application of [backend/server.js]:
    the five request handlers ([/signup], [/login], [POST /chat], the
    catch-all on [/chat] and [/health/ollama]) written in a monad that
    threads the world the handlers act on (the [User] collection and the
    HTTP calls made to the Ollama runtime) and carries JavaScript
    exceptions.  Library code that is not part of the repository (bcryptjs,
    the runtime behind axios) is taken as a parameter; the CORS middleware
    is modelled with its default options.
    Requests are handled one after the other; what the handlers print on
    the console is left out. *)

From Stdlib Require Import String Ascii List ZArith Bool DecimalString.
From ExtLib Require Import Structures.Monad Structures.MonadExc Structures.MonadState.
Import ListNotations.
Import MonadNotation.
Local Open Scope string_scope.
Local Open Scope Z_scope.
Local Open Scope monad_scope.
Set Warnings "-register-all".

(** ** JavaScript values *)

(** The values that travel through the handlers: parsed JSON bodies, the
    [undefined] of an absent property, and the [ObjectId] of a stored
    document.  JSON numbers are kept as integers: the handlers only test
    them for being zero. *)
Inductive value : Type :=
| Undefined
| Null
| Bool (b : bool)
| Num (n : Z)
| Str (s : string)
| Oid (n : nat)
| Arr (elems : list value)
| Obj (fields : list (string * value)).

(** [!!v]: the values JavaScript treats as true in a condition. *)
Definition truthy (v : value) : bool :=
  match v with
  | Undefined | Null => false
  | Bool b => b
  | Num n => negb (n =? 0)
  | Str s => negb (s =? "")%string
  | Oid _ | Arr _ | Obj _ => true
  end.

(** [a || b] *)
Definition js_or (a b : value) : value := if truthy a then a else b.

(** [v === 'lit'] against a string literal. *)
Definition is_str (v : value) (lit : string) : bool :=
  match v with
  | Str s => (s =? lit)%string
  | _ => false
  end.

(** Own-property lookup in an object literal or a parsed JSON object. *)
Fixpoint assoc (k : string) (fields : list (string * value)) : option value :=
  match fields with
  | [] => None
  | (k', v) :: rest => if (k' =? k)%string then Some v else assoc k rest
  end.

(** An optional string as the value it is in JavaScript. *)
Definition of_opt (o : option string) : value :=
  match o with
  | Some s => Str s
  | None => Undefined
  end.

(** ** Errors and axios results *)

(** What [axios] resolves with: [response.status] and [response.data]. *)
Record axios_response : Type := mkAxiosResponse {
  ax_status : Z;
  ax_data : value
}.

(** A thrown JavaScript error object, with the fields the handlers read:
    [err.message], and for axios failures [err.code] and [err.response]. *)
Record error : Type := mkError {
  err_name : string;
  err_message : string;
  err_code : option string;
  err_response : option axios_response
}.

Definition TypeError (msg : string) : error :=
  {| err_name := "TypeError"; err_message := msg;
     err_code := None; err_response := None |}.

(** A computation that returns or throws. *)
Definition result (A : Type) : Type := (error + A)%type.

(** [v.k] for a property name [k] that no built-in prototype defines
    (the handlers read [message], [response], [models] and [name]). *)
Definition get_prop (v : value) (k : string) : result value :=
  match v with
  | Undefined =>
      inl (TypeError ("Cannot read properties of undefined (reading '" ++ k ++ "')"))
  | Null =>
      inl (TypeError ("Cannot read properties of null (reading '" ++ k ++ "')"))
  | Obj fields =>
      inr (match assoc k fields with Some x => x | None => Undefined end)
  | _ => inr Undefined
  end.

(** [l.map(m => m.name)] on the elements of an array. *)
Fixpoint map_name (l : list value) : result (list value) :=
  match l with
  | [] => inr []
  | m :: rest =>
      match get_prop m "name" with
      | inl e => inl e
      | inr n =>
          match map_name rest with
          | inl e => inl e
          | inr ns => inr (n :: ns)
          end
      end
  end.

(** [l.some(model => model.name === lit)]: stops at the first hit. *)
Fixpoint some_name_is (lit : string) (l : list value) : result bool :=
  match l with
  | [] => inr false
  | m :: rest =>
      match get_prop m "name" with
      | inl e => inl e
      | inr n => if is_str n lit then inr true else some_name_is lit rest
      end
  end.

(** ** The world of the handlers *)

(** A document of the [User] model, after [userSchema]. *)
Record User : Type := mkUser {
  _id : nat;
  username : string;
  email : string;
  passwordHash : string;
  phone : option string
}.

(** A request sent through axios to the runtime. *)
Inductive call : Type :=
| AxiosGet (url : string) (timeout : option Z)
| AxiosPost (url : string) (payload : value)
            (headers : list (string * string)) (timeout : option Z).

Inductive axios_result : Type :=
| Resolved (r : axios_response)
| Rejected (e : error).

(** The state the handlers read and change: the [User] collection in
    insertion order with the next free identifier, whether the store
    connection is up, the number of salts bcrypt has drawn, and the calls
    made to the runtime so far (oldest first). *)
Record world : Type := mkWorld {
  users : list User;
  next_id : nat;
  store_online : bool;
  salts : nat;
  calls : list call
}.

(** What the process is started with: [process.env.OLLAMA_URL] and the
    runtime at the other end of axios, whose answer to a call may depend
    on every call made before it. *)
Record env : Type := mkEnv {
  OLLAMA_URL : option string;
  runtime : list call -> call -> axios_result
}.

(** ** The handler monad *)

Definition M (A : Type) : Type := world -> result A * world.

#[export] Instance Monad_M : Monad M := {|
  ret := fun A (a : A) (w : world) => (inr a, w);
  bind := fun A B (m : M A) (k : A -> M B) (w : world) =>
    match m w with
    | (inr a, w') => k a w'
    | (inl e, w') => (inl e, w')
    end
|}.

(** [throw] and [try { } catch (e) { }]: what the body did to the world
    before it threw stays done. *)
#[export] Instance MonadExc_M : MonadExc error M := {|
  raise := fun A (e : error) (w : world) => (inl e, w);
  catch := fun A (m : M A) (h : error -> M A) (w : world) =>
    match m w with
    | (inr a, w') => (inr a, w')
    | (inl e, w') => h e w'
    end
|}.

#[export] Instance MonadState_M : MonadState world M := {|
  get := fun w => (inr w, w);
  put := fun w' _ => (inr tt, w')
|}.

(** A pure step that may throw. *)
Definition lift {A : Type} (r : result A) : M A := fun w => (r, w).

(** One axios request: the call is recorded, and the runtime's answer
    either resolves the promise or rejects it.  Every call settles here;
    a call that never does (the listing call of the relay sets no
    timeout) has no place in this model. *)
Definition axios (E : env) (c : call) : M axios_response :=
  fun w =>
    let w' := {| users := users w; next_id := next_id w;
                 store_online := store_online w; salts := salts w;
                 calls := calls w ++ [c] |} in
    match runtime E (calls w) c with
    | Resolved r => (inr r, w')
    | Rejected e => (inl e, w')
    end.

(** ** Express responses *)

Inductive content : Type :=
| NoBody
| Json (v : value)
| Text (s : string).

Record response : Type := mkResponse {
  res_status : Z;
  res_headers : list (string * string);
  res_body : content
}.

(** The [res] object a handler starts from: status 200, nothing set. *)
Definition res : response :=
  {| res_status := 200; res_headers := []; res_body := NoBody |}.

(** [res.status(code)], [res.set(field, v)], [res.json(v)], [res.send(s)] *)
Definition status (code : Z) (r : response) : response :=
  {| res_status := code; res_headers := res_headers r; res_body := res_body r |}.


Definition json (v : value) (r : response) : response :=
  {| res_status := res_status r; res_headers := res_headers r; res_body := Json v |}.

Definition send (s : string) (r : response) : response :=
  {| res_status := res_status r; res_headers := res_headers r; res_body := Text s |}.

(** A request as the chat routes see it once [express.json()] has parsed
    the body into an object. *)
Record request : Type := mkRequest {
  method : string;
  body : list (string * value)
}.

(** ** The chat relay *)

Definition MODEL : string := "llama3.2:1b-instruct-q4_K_M".

(** [process.env.OLLAMA_URL || 'http://localhost:11434'] *)
Definition ollamaUrl (E : env) : string :=
  match js_or (of_opt (OLLAMA_URL E)) (Str "http://localhost:11434") with
  | Str s => s
  | _ => "http://localhost:11434"
  end.

Definition tags_call (E : env) : call :=
  AxiosGet (ollamaUrl E ++ "/api/tags") None.

Definition generate_call (E : env) (userMessage : value) : call :=
  AxiosPost (ollamaUrl E ++ "/api/generate")
    (Obj [("model", Str MODEL); ("prompt", userMessage); ("stream", Bool false)])
    [("Content-Type", "application/json")]
    (Some 30000).

(** The [catch (err)] block of [app.post('/chat')]. *)
Definition chat_catch (err : error) : response :=
  if match err_code err with Some c => (c =? "ECONNREFUSED")%string | None => false end
  then json (Obj [("error",
         Str "Cannot connect to Ollama service. Please ensure Ollama is running.")])
         (status 503 res)
  else if match err_response err with Some r => ax_status r =? 404 | None => false end
  then json (Obj [("error",
         Str ("The specified AI model is not available. Please check if "
              ++ "llama3.2:1b-instruct-q4_K_M is installed."))])
         (status 404 res)
  else if match err_code err with Some c => (c =? "ENOTFOUND")%string | None => false end
  then json (Obj [("error",
         Str "Ollama service not found. Please check your network configuration.")])
         (status 503 res)
  else json (Obj [("error",
         Str ("Failed to get response from Ollama: " ++ err_message err))])
         (status 500 res).

(** [app.post('/chat', async (req, res) => ...)] *)
Definition chat (E : env) (req : request) : M response :=
  catch
    (userMessage <- lift (get_prop (Obj (body req)) "message") ;;
     if negb (truthy userMessage)
     then ret (json (Obj [("error", Str "No message provided.")]) (status 400 res))
     else
       (* first, check if the model is available; a failure is only logged *)
       catch (_ <- axios E (tags_call E) ;; ret tt) (fun _ => ret tt) ;;
       ollamaResponse <- axios E (generate_call E userMessage) ;;
       if negb (ax_status ollamaResponse =? 200)
       then ret (json (Obj [("error", Str "Ollama API error.")]) (status 500 res))
       else
         field <- lift (get_prop (ax_data ollamaResponse) "response") ;;
         let reply := js_or field (Str "No response from AI model.") in
         ret (json (Obj [("reply", reply)]) res))
    (fun err => ret (chat_catch err)).


(** [app.get('/', ...)] *)
Definition root : response := send "Backend is running!" res.

(** ** The health report *)

(** [app.get('/health/ollama', async (req, res) => ...)].  [models] is
    used as an array: [models.some] on anything else is a [TypeError],
    which the handler's own [catch] turns into the unhealthy report. *)
Definition health_ollama (E : env) : M response :=
  catch
    (response <- axios E (AxiosGet (ollamaUrl E ++ "/api/tags") (Some 5000)) ;;
     field <- lift (get_prop (ax_data response) "models") ;;
     let models := js_or field (Arr []) in
     match models with
     | Arr l =>
         hasRequiredModel <- lift (some_name_is MODEL l) ;;
         names <- lift (map_name l) ;;
         ret (json (Obj [("status", Str "healthy");
                         ("ollama_url", Str (ollamaUrl E));
                         ("models_available", Num (Z.of_nat (length l)));
                         ("required_model_available", Bool hasRequiredModel);
                         ("models", Arr names)]) res)
     | _ => raise (TypeError "models.some is not a function")
     end)
    (fun error =>
       ret (json (Obj [("status", Str "unhealthy");
                       ("error", Str (err_message error));
                       ("ollama_url", Str (ollamaUrl E))]) (status 503 res))).

(** ** The credential store *)

(** Errors of the store.  They carry no axios fields. *)
Definition StoreError (name msg : string) : error :=
  {| err_name := name; err_message := msg;
     err_code := None; err_response := None |}.

Definition same_username (s : string) (u : User) : bool := (username u =? s)%string.
Definition same_email (s : string) (u : User) : bool := (email u =? s)%string.

(** [User.create({ username, email, passwordHash, phone })] under
    [userSchema]: the three [required] paths must be non-empty strings,
    the [unique] indexes on [username] and [email] reject a value some
    stored document already has, and a store that is down rejects
    everything.  A rejected create writes nothing. *)
Definition User_create (username email passwordHash : string)
    (phone : option string) : M User :=
  w <- get ;;
  if (username =? "")%string || (email =? "")%string || (passwordHash =? "")%string
  then raise (StoreError "ValidationError" "User validation failed")
  else if negb (store_online w)
  then raise (StoreError "MongooseError" "Operation `users.insertOne()` failed")
  else if existsb (same_username username) (users w)
  then raise (StoreError "MongoServerError"
                "E11000 duplicate key error collection: chatapp.users index: username_1")
  else if existsb (same_email email) (users w)
  then raise (StoreError "MongoServerError"
                "E11000 duplicate key error collection: chatapp.users index: email_1")
  else
    let user := {| _id := next_id w; username := username; email := email;
                   passwordHash := passwordHash; phone := phone |} in
    put {| users := users w ++ [user]; next_id := S (next_id w);
           store_online := store_online w; salts := salts w;
           calls := calls w |} ;;
    ret user.

(** [User.findOne({ $or: [{ username: key }, { email: key }] })]: the
    first stored document that matches, or [null]. *)
Definition User_findOne (key : string) : M (option User) :=
  w <- get ;;
  if negb (store_online w)
  then raise (StoreError "MongooseError" "Operation `users.findOne()` failed")
  else ret (find (fun u => same_username key u || same_email key u) (users w)).

(** ** Signup and login *)

(** The body of a [/signup] request: each field a string, or absent. *)
Record signup_body : Type := mkSignup {
  su_username : option string;
  su_email : option string;
  su_password : option string;
  su_phone : option string
}.

(** The body of a [/login] request. *)
Record login_body : Type := mkLogin {
  li_usernameOrEmail : option string;
  li_password : option string
}.

(** The string behind a field that passed the [!field] test. *)
Definition text (o : option string) : string :=
  match o with
  | Some s => s
  | None => ""
  end.

Section Auth.

(** bcryptjs.  [bcrypt.hash(password, rounds)] draws a salt; the salt is
    the first argument here.  [bcrypt.compare(password, hash)]. *)
Variable bcrypt_hash : nat -> string -> Z -> string.
Variable bcrypt_compare : string -> string -> bool.

Definition hash (password : string) (rounds : Z) : M string :=
  w <- get ;;
  put {| users := users w; next_id := next_id w;
         store_online := store_online w; salts := S (salts w);
         calls := calls w |} ;;
  ret (bcrypt_hash (salts w) password rounds).

(** [app.post('/signup', async (req, res) => ...)] *)
Definition signup (b : signup_body) : M response :=
  let username := su_username b in
  let email := su_email b in
  let password := su_password b in
  let phone := su_phone b in
  if negb (truthy (of_opt username)) || negb (truthy (of_opt email))
     || negb (truthy (of_opt password))
  then ret (json (Obj [("error", Str "Missing fields")]) (status 400 res))
  else
    passwordHash <- hash (text password) 10 ;;
    catch
      (user <- User_create (text username) (text email) passwordHash phone ;;
       ret (json (Obj [("message", Str "User created");
                       ("userId", Oid (_id user))]) (status 201 res)))
      (fun err =>
         ret (json (Obj [("error", Str "User already exists or invalid data")])
                (status 400 res))).

(** [app.post('/login', async (req, res) => ...)].  Nothing catches a
    rejected [User.findOne]: the handler then throws. *)
Definition login (b : login_body) : M response :=
  let usernameOrEmail := li_usernameOrEmail b in
  let password := li_password b in
  if negb (truthy (of_opt usernameOrEmail)) || negb (truthy (of_opt password))
  then ret (json (Obj [("error", Str "Missing fields")]) (status 400 res))
  else
    user <- User_findOne (text usernameOrEmail) ;;
    match user with
    | Some u =>
        if bcrypt_compare (text password) (passwordHash u)
        then ret (json (Obj [("message", Str "Login successful");
                             ("userId", Oid (_id u));
                             ("username", Str (username u));
                             ("email", Str (email u));
                             ("phone", of_opt (phone u))]) res)
        else ret (json (Obj [("error", Str "Invalid credentials")]) (status 401 res))
    | None => ret (json (Obj [("error", Str "Invalid credentials")]) (status 401 res))
    end.

End Auth.

(** ** The layers on [/chat] *)

Section Routing.

(** [app.use(cors())] runs before every route; it either ends the
    request with a response of its own or passes it on. *)
Variable cors : request -> option response.


End Routing.





(** ** Vocabulary of the statements *)

(** [req.body.message] *)
Definition message_of (req : request) : value :=
  match assoc "message" (body req) with
  | Some x => x
  | None => Undefined
  end.

(** The runtime's answer to the generation call of a [/chat] request that
    starts in world [w]: by then the model-listing call has been made. *)
Definition generate_result (E : env) (req : request) (w : world) : axios_result :=
  runtime E (calls w ++ [tags_call E]) (generate_call E (message_of req)).

(** The world a relayed [/chat] request leaves behind: two more calls. *)
Definition chat_world (E : env) (req : request) (w : world) : world :=
  {| users := users w; next_id := next_id w; store_online := store_online w;
     salts := salts w;
     calls := (calls w ++ [tags_call E]) ++ [generate_call E (message_of req)] |}.

(** Two failures have the same cause when the catch block cannot tell
    them apart: same [code], same [response.status]. *)
Definition same_cause (e1 e2 : error) : Prop :=
  err_code e1 = err_code e2 /\
  option_map ax_status (err_response e1) = option_map ax_status (err_response e2).

(** The runtime's answer to the listing call of a health request. *)
Definition tags_result (E : env) (w : world) : axios_result :=
  runtime E (calls w) (AxiosGet (ollamaUrl E ++ "/api/tags") (Some 5000)).

(** The array the health handler works on: [data.models || []], when
    [data] has properties and that value is an array. *)
Definition listed (data : value) : option (list value) :=
  match get_prop data "models" with
  | inr field =>
      match js_or field (Arr []) with
      | Arr l => Some l
      | _ => None
      end
  | inl _ => None
  end.

(** The healthy report for [n] listed models with names [names]. *)
Definition healthy (E : env) (l names : list value) (available : bool) : response :=
  json (Obj [("status", Str "healthy");
             ("ollama_url", Str (ollamaUrl E));
             ("models_available", Num (Z.of_nat (length l)));
             ("required_model_available", Bool available);
             ("models", Arr names)]) res.

Definition unhealthy (E : env) (reason : string) : response :=
  json (Obj [("status", Str "unhealthy");
             ("error", Str reason);
             ("ollama_url", Str (ollamaUrl E))]) (status 503 res).

Definition invalid_credentials : response :=
  json (Obj [("error", Str "Invalid credentials")]) (status 401 res).

Definition conflict_or_invalid : response :=
  json (Obj [("error", Str "User already exists or invalid data")]) (status 400 res).


(** The store turns a new document down when it is offline, when the
    hash is empty, or when a stored document has the same username or the
    same email. *)
Definition turned_down (w : world) (u e h : string) : Prop :=
  store_online w = false \/ h = "" \/
  (exists d, In d (users w) /\ username d = u) \/
  (exists d, In d (users w) /\ email d = e).

(** ** Sample worlds, runtimes and requests *)

Definition empty_world : world :=
  {| users := []; next_id := 0%nat; store_online := true; salts := 0%nat; calls := [] |}.

Definition econnrefused : error :=
  {| err_name := "AxiosError";
     err_message := "connect ECONNREFUSED 127.0.0.1:11434";
     err_code := Some "ECONNREFUSED"; err_response := None |}.

Definition econnaborted : error :=
  {| err_name := "AxiosError";
     err_message := "timeout of 30000ms exceeded";
     err_code := Some "ECONNABORTED"; err_response := None |}.

(** A runtime that refuses every connection. *)
Definition runtime_down : env :=
  {| OLLAMA_URL := None; runtime := fun _ _ => Rejected econnrefused |}.

(** A runtime whose every call runs into the timeout. *)
Definition runtime_stalled : env :=
  {| OLLAMA_URL := None; runtime := fun _ _ => Rejected econnaborted |}.

(** A runtime that is up: it lists [tags] and answers every generation
    request with [generated]. *)
Definition runtime_up (tags generated : value) : env :=
  {| OLLAMA_URL := Some "http://ollama:11434";
     runtime := fun _ c =>
       match c with
       | AxiosGet _ _ => Resolved {| ax_status := 200; ax_data := tags |}
       | AxiosPost _ _ _ _ => Resolved {| ax_status := 200; ax_data := generated |}
       end |}.

(** A runtime whose listing endpoint is broken but which generates. *)
Definition runtime_no_tags (generated : value) : env :=
  {| OLLAMA_URL := Some "http://ollama:11434";
     runtime := fun _ c =>
       match c with
       | AxiosGet _ _ => Rejected econnaborted
       | AxiosPost _ _ _ _ => Resolved {| ax_status := 200; ax_data := generated |}
       end |}.

Definition hi : request :=
  {| method := "POST"; body := [("message", Str "hi")] |}.

Definition no_message : request := {| method := "POST"; body := [] |}.



(** A stand-in for bcryptjs. *)
Definition toy_hash (salt : nat) (password : string) (rounds : Z) : string :=
  "$2a$" ++ password.

Definition toy_compare (password h : string) : bool :=
  (h =? "$2a$" ++ password)%string.

Definition alice : User :=
  {| _id := 0%nat; username := "alice"; email := "alice@example.org";
     passwordHash := "$2a$wonderland"; phone := None |}.

Definition one_user : world :=
  {| users := [alice]; next_id := 1%nat; store_online := true;
     salts := 1%nat; calls := [] |}.


(** ** What goes over the wire *)

(** [JSON.stringify] on strings: the quotation mark and the backslash are
    escaped, control characters are written [\b], [\f], [\n], [\r], [\t]
    or [\u00xx], every other character stands for itself. *)
Definition dquote : string := String "034"%char EmptyString.

Definition hex_digit (n : nat) : ascii :=
  nth n ["0"; "1"; "2"; "3"; "4"; "5"; "6"; "7"; "8"; "9";
         "a"; "b"; "c"; "d"; "e"; "f"]%char "0"%char.

Definition escape_char (c : ascii) : string :=
  let n := nat_of_ascii c in
  if (n =? 34)%nat then "\" ++ dquote
  else if (n =? 92)%nat then "\\"
  else if (n =? 8)%nat then "\b"
  else if (n =? 12)%nat then "\f"
  else if (n =? 10)%nat then "\n"
  else if (n =? 13)%nat then "\r"
  else if (n =? 9)%nat then "\t"
  else if (n <? 32)%nat
  then "\u00" ++ String (hex_digit (n / 16)) (String (hex_digit (n mod 16)) EmptyString)
  else String c EmptyString.

Fixpoint escape (s : string) : string :=
  match s with
  | EmptyString => EmptyString
  | String c rest => escape_char c ++ escape rest
  end.

Definition quote (s : string) : string := dquote ++ escape s ++ dquote.

(** [parts.join(sep)] *)
Fixpoint join (sep : string) (parts : list string) : string :=
  match parts with
  | [] => EmptyString
  | [x] => x
  | x :: rest => x ++ sep ++ join sep rest
  end.

Section Wire.

(** [ObjectId.prototype.toHexString], which [JSON.stringify] reaches
    through [toJSON]. *)
Variable toHexString : nat -> string.

(** [JSON.stringify(v)]: [undefined] has no text; it is left out of an
    object and written [null] in an array.  The numbers the handlers send
    are array lengths, written in decimal. *)
Fixpoint JSON_stringify (v : value) : option string :=
  match v with
  | Undefined => None
  | Null => Some "null"
  | Bool b => Some (if b then "true" else "false")
  | Num n => Some (NilEmpty.string_of_int (Z.to_int n))
  | Str s => Some (quote s)
  | Oid n => Some (quote (toHexString n))
  | Arr elems =>
      Some ("[" ++ join ","
              (map (fun x => match JSON_stringify x with
                             | Some t => t
                             | None => "null"
                             end) elems) ++ "]")
  | Obj fields =>
      Some ("{" ++ join ","
              (flat_map (fun kv => match JSON_stringify (snd kv) with
                                   | Some t => [quote (fst kv) ++ ":" ++ t]
                                   | None => []
                                   end) fields) ++ "}")
  end.

(** The body text of a response sent with [res.json] or [res.send]. *)
Definition wire (r : response) : string :=
  match res_body r with
  | NoBody => EmptyString
  | Text s => s
  | Json v => match JSON_stringify v with
              | Some t => t
              | None => EmptyString
              end
  end.

(** [curl -s URL]: the body text of whatever the backend answers, and
    nothing when there is no backend to connect to. *)
Definition curl_s (answer : option response) : string :=
  match answer with
  | Some r => wire r
  | None => EmptyString
  end.

End Wire.

(** [curl -f URL > /dev/null 2>&1] as a condition: it holds when the
    backend answers with a status below 400. *)
Definition curl_f (answer : option response) : bool :=
  match answer with
  | Some r => res_status r <? 400
  | None => false
  end.

(** [grep -q pat] for a pattern of plain characters: some line of the
    text has [pat] in it. *)
Fixpoint grep_q (pat text : string) : bool :=
  prefix pat text ||
  match text with
  | EmptyString => false
  | String _ rest => grep_q pat rest
  end.

(** The store as [userSchema] wants it: no two documents with the same
    username, the same email or the same identifier, and every
    identifier below the next free one. *)
Definition store_wf (w : world) : Prop :=
  NoDup (map username (users w)) /\
  NoDup (map email (users w)) /\
  NoDup (map _id (users w)) /\
  Forall (fun d => (_id d < next_id w)%nat) (users w).

(** [bcrypt.compare] accepts a password against every hash
    [bcrypt.hash] makes of it. *)
Definition verifies (bcrypt_hash : nat -> string -> Z -> string)
    (bcrypt_compare : string -> string -> bool) : Prop :=
  forall salt password rounds,
    bcrypt_compare password (bcrypt_hash salt password rounds) = true.

(** A listing with an entry nobody can read a name from, after the
    required model. *)
Definition listing_with_null : value :=
  Obj [("models", Arr [Obj [("name", Str MODEL)]; Null])].

(** An account whose email is the text [bob]. *)
Definition carol : User :=
  {| _id := 0%nat; username := "carol"; email := "bob";
     passwordHash := "$2a$secret"; phone := None |}.

Definition carol_only : world :=
  {| users := [carol]; next_id := 1%nat; store_online := true;
     salts := 1%nat; calls := [] |}.

(** * Properties *)

(** ** Running the chat relay *)

Lemma bind_run {A B : Type} (m : M A) (k : A -> M B) (w : world) :
  bind m k w = match m w with
               | (inr a, w') => k a w'
               | (inl e, w') => (inl e, w')
               end.
Proof. reflexivity. Qed.

Lemma is_str_spec v lit : is_str v lit = true <-> v = Str lit.
Proof.
  destruct v; simpl; split; intros H; try discriminate.
  - apply String.eqb_eq in H. now subst.
  - injection H as ->. apply String.eqb_refl.
Qed.

(** A request without a truthy [message] is answered on the spot. *)
Lemma chat_rejects E req w :
  truthy (message_of req) = false ->
  chat E req w =
    (inr (json (Obj [("error", Str "No message provided.")]) (status 400 res)), w).
Proof.
  intros Hm. unfold chat, message_of in *. cbn. now rewrite Hm.
Qed.

(** A request with a truthy [message] makes the listing call and the
    generation call, whatever the listing call gives, and answers from
    the outcome of the generation call alone. *)
Lemma chat_run E req w :
  truthy (message_of req) = true ->
  chat E req w =
    (inr match generate_result E req w with
         | Rejected e => chat_catch e
         | Resolved a =>
             if ax_status a =? 200
             then match get_prop (ax_data a) "response" with
                  | inr field =>
                      json (Obj [("reply",
                                  js_or field (Str "No response from AI model."))]) res
                  | inl e => chat_catch e
                  end
             else json (Obj [("error", Str "Ollama API error.")]) (status 500 res)
         end,
     chat_world E req w).
Proof.
  intros Hm. unfold chat, generate_result, chat_world, message_of in *.
  cbn. rewrite Hm. cbn. unfold axios.
  destruct (runtime E (calls w) (tags_call E)) as [t|t]; cbn;
    (destruct (runtime E (calls w ++ [tags_call E]) _) as [a|e]; cbn;
     [ destruct (ax_status a =? 200); cbn;
       [ destruct (get_prop (ax_data a) "response") | ]
     | ]); reflexivity.
Qed.

(** The catch block looks at [code] and [response.status] only, apart
    from the message it quotes in its last branch. *)
Lemma chat_catch_status e1 e2 :
  same_cause e1 e2 -> res_status (chat_catch e1) = res_status (chat_catch e2).
Proof.
  intros [Hc Hr]. unfold chat_catch. rewrite <- Hc.
  assert (Hs : match err_response e1 with Some r => ax_status r =? 404 | None => false end
             = match err_response e2 with Some r => ax_status r =? 404 | None => false end).
  { destruct (err_response e1), (err_response e2); simpl in Hr;
      try discriminate; try reflexivity.
    injection Hr as ->. reflexivity. }
  rewrite <- Hs.
  repeat match goal with |- context [if ?c then _ else _] => destruct c end;
    reflexivity.
Qed.

Lemma chat_catch_eq e1 e2 :
  same_cause e1 e2 -> err_message e1 = err_message e2 -> chat_catch e1 = chat_catch e2.
Proof.
  intros [Hc Hr] Hm. unfold chat_catch. rewrite <- Hc, <- Hm.
  assert (Hs : match err_response e1 with Some r => ax_status r =? 404 | None => false end
             = match err_response e2 with Some r => ax_status r =? 404 | None => false end).
  { destruct (err_response e1), (err_response e2); simpl in Hr;
      try discriminate; try reflexivity.
    injection Hr as ->. reflexivity. }
  rewrite <- Hs. reflexivity.
Qed.

(** The relay answers 200, 400, 404, 500 or 503. *)
Lemma chat_catch_codes e :
  In (res_status (chat_catch e)) [503; 404; 500].
Proof.
  unfold chat_catch.
  repeat match goal with |- context [if ?c then _ else _] => destruct c end;
    simpl; auto.
Qed.

Lemma chat_codes E req w r w' :
  chat E req w = (inr r, w') -> In (res_status r) [200; 400; 404; 500; 503].
Proof.
  destruct (truthy (message_of req)) eqn:Hm.
  - rewrite (chat_run E req w Hm). intros [= <- _].
    assert (Hc : forall e, In (res_status (chat_catch e)) [200; 400; 404; 500; 503]).
    { intros e. pose proof (chat_catch_codes e) as H. simpl in *. intuition. }
    destruct (generate_result E req w) as [a|e]; [|apply Hc].
    destruct (ax_status a =? 200); [|simpl; auto].
    destruct (get_prop (ax_data a) "response"); [apply Hc|simpl; auto].
  - rewrite (chat_rejects E req w Hm). intros [= <- _]. simpl. auto.
Qed.

(** ** The chat relay: replies *)

(** C1, as the claim states it, fails: a generation call that succeeds
    with the empty string as its [response] is not passed through.  The
    handler answers 200 with the placeholder text, because [||] takes the
    empty string for a missing value. *)
Lemma chat_empty_reply_replaced :
  let E := runtime_up (Obj []) (Obj [("response", Str "")]) in
  generate_result E hi empty_world
    = Resolved {| ax_status := 200; ax_data := Obj [("response", Str "")] |} /\
  fst (chat E hi empty_world)
    = inr (json (Obj [("reply", Str "No response from AI model.")]) res) /\
  fst (chat E hi empty_world) <> inr (json (Obj [("reply", Str "")]) res).
Proof.
  cbv zeta. split; [reflexivity|]. split; [reflexivity|]. discriminate.
Qed.

(** C1, amended: for every POST /chat request with a message whose
    generation call resolves with HTTP 200 and a body that has properties,
    the handler answers HTTP 200 with a [reply]; the reply is the
    downstream [response] verbatim when that value is truthy (a non-empty
    string, for one), and the placeholder text when it is absent or falsy,
    the empty string included. *)
Theorem chat_success_reply E req w a field :
  truthy (message_of req) = true ->
  generate_result E req w = Resolved a ->
  ax_status a = 200 ->
  get_prop (ax_data a) "response" = inr field ->
  exists reply,
    fst (chat E req w) = inr (json (Obj [("reply", reply)]) res) /\
    res_status (json (Obj [("reply", reply)]) res) = 200 /\
    (truthy field = true -> reply = field) /\
    (truthy field = false -> reply = Str "No response from AI model.").
Proof.
  intros Hm Hg Hs Hf. rewrite (chat_run E req w Hm), Hg, Hs, Hf. cbn.
  exists (js_or field (Str "No response from AI model.")).
  unfold js_or. repeat split; intros Ht; now rewrite Ht.
Qed.

Lemma chat_success_reply_witness :
  exists reply,
    fst (chat (runtime_up (Obj []) (Obj [("response", Str "Hello!")])) hi empty_world)
      = inr (json (Obj [("reply", reply)]) res) /\
    res_status (json (Obj [("reply", reply)]) res) = 200 /\
    (truthy (Str "Hello!") = true -> reply = Str "Hello!") /\
    (truthy (Str "Hello!") = false -> reply = Str "No response from AI model.").
Proof.
  apply (chat_success_reply
           (runtime_up (Obj []) (Obj [("response", Str "Hello!")])) hi empty_world
           {| ax_status := 200; ax_data := Obj [("response", Str "Hello!")] |}
           (Str "Hello!")); reflexivity.
Defined.

(** ** The chat relay: failures *)

(** C4: when the generation call of a POST /chat request fails, the
    handler answers with one status chosen by the cause, tested in this
    order: connection refused ([ECONNREFUSED]) gives 503; a downstream
    HTTP 404 gives 404; a host that does not resolve ([ENOTFOUND]) gives
    503; every other failure, a timeout included, gives 500 with the
    downstream message in the error body. *)
Theorem chat_failure_status E req w e :
  truthy (message_of req) = true ->
  generate_result E req w = Rejected e ->
  exists r,
    fst (chat E req w) = inr r /\
    (err_code e = Some "ECONNREFUSED" -> res_status r = 503) /\
    (err_code e <> Some "ECONNREFUSED" ->
     option_map ax_status (err_response e) = Some 404 -> res_status r = 404) /\
    (err_code e = Some "ENOTFOUND" ->
     option_map ax_status (err_response e) <> Some 404 -> res_status r = 503) /\
    (err_code e <> Some "ECONNREFUSED" -> err_code e <> Some "ENOTFOUND" ->
     option_map ax_status (err_response e) <> Some 404 ->
     res_status r = 500 /\
     res_body r = Json (Obj [("error",
       Str ("Failed to get response from Ollama: " ++ err_message e))])) /\
    (err_code e = Some "ECONNABORTED" -> err_response e = None -> res_status r = 500).
Proof.
  intros Hm Hg. rewrite (chat_run E req w Hm), Hg. cbn.
  exists (chat_catch e). split; [reflexivity|]. unfold chat_catch.
  destruct (err_code e) as [c|] eqn:Hc; destruct (err_response e) as [a|] eqn:Ha; cbn;
    try destruct (String.eqb_spec c "ECONNREFUSED");
    try destruct (Z.eqb_spec (ax_status a) 404);
    try destruct (String.eqb_spec c "ENOTFOUND");
    subst; cbn; repeat split; intros; try reflexivity; try congruence.
Qed.

Lemma chat_failure_status_witness :
  (exists r,
     fst (chat runtime_down hi empty_world) = inr r /\
     res_status r = 503) /\
  (exists r,
     fst (chat runtime_stalled hi empty_world) = inr r /\
     res_status r = 500 /\
     res_body r = Json (Obj [("error",
       Str "Failed to get response from Ollama: timeout of 30000ms exceeded")])).
Proof.
  split.
  - destruct (chat_failure_status runtime_down hi empty_world econnrefused
                eq_refl eq_refl) as [r [Hr [H503 _]]].
    exists r. split; [exact Hr | exact (H503 eq_refl)].
  - destruct (chat_failure_status runtime_stalled hi empty_world econnaborted
                eq_refl eq_refl) as [r [Hr [_ [_ [_ [H500 _]]]]]].
    exists r. split; [exact Hr|].
    apply H500; discriminate.
Defined.

(** C8: two successive POST /chat requests with the same message, whose
    generation calls fail with the same cause, get the same status, and
    the same response altogether when the failures carry the same
    message; nothing the first request left behind changes the second
    answer. *)
Theorem chat_repeat_same_error E req w e1 e2 :
  generate_result E req w = Rejected e1 ->
  generate_result E req (snd (chat E req w)) = Rejected e2 ->
  same_cause e1 e2 ->
  exists r1 r2 w2,
    (r1 <- chat E req ;; r2 <- chat E req ;; ret (r1, r2)) w = (inr (r1, r2), w2) /\
    res_status r1 = res_status r2 /\
    (err_message e1 = err_message e2 -> r1 = r2).
Proof.
  intros H1 H2 Hc. rewrite bind_run. destruct (truthy (message_of req)) eqn:Hm.
  - rewrite (chat_run E req w Hm) in *. cbn [snd] in H2. rewrite H1.
    rewrite bind_run, (chat_run E req _ Hm), H2.
    exists (chat_catch e1), (chat_catch e2). eexists.
    split; [reflexivity|]. split.
    + now apply chat_catch_status.
    + now apply chat_catch_eq.
  - rewrite (chat_rejects E req w Hm), bind_run, (chat_rejects E req w Hm).
    do 3 eexists. split; [reflexivity|]. split; reflexivity.
Qed.

Lemma chat_repeat_same_error_witness :
  exists r1 r2 w2,
    (r1 <- chat runtime_down hi ;; r2 <- chat runtime_down hi ;; ret (r1, r2)) empty_world
      = (inr (r1, r2), w2) /\
    res_status r1 = res_status r2 /\
    (err_message econnrefused = err_message econnrefused -> r1 = r2).
Proof.
  apply (chat_repeat_same_error runtime_down hi empty_world econnrefused econnrefused);
    [reflexivity | reflexivity | split; reflexivity].
Defined.

(** C10: the model-listing call made before the generation call never
    shows in the outcome.  Two runtimes that answer every generation
    request alike, and may differ in everything they answer to the listing
    call, give the same response (status and body) to the same POST /chat
    request; and with a message the generation call is made in both
    cases, right after the listing call. *)
Theorem chat_ignores_listing E1 E2 req w :
  OLLAMA_URL E1 = OLLAMA_URL E2 ->
  (forall h url payload headers timeout,
     runtime E1 h (AxiosPost url payload headers timeout)
     = runtime E2 h (AxiosPost url payload headers timeout)) ->
  chat E1 req w = chat E2 req w /\
  (truthy (message_of req) = true ->
   calls (snd (chat E1 req w))
     = (calls w ++ [tags_call E1; generate_call E1 (message_of req)])%list).
Proof.
  intros Hu Hg.
  assert (Hurl : ollamaUrl E1 = ollamaUrl E2) by (unfold ollamaUrl; now rewrite Hu).
  destruct (truthy (message_of req)) eqn:Hm.
  - rewrite !(chat_run _ req w Hm). unfold generate_result, chat_world.
    unfold generate_call, tags_call. rewrite Hurl, Hg. split; [reflexivity|].
    intros _. cbn. now rewrite <- app_assoc.
  - rewrite !(chat_rejects _ req w Hm). split; [reflexivity | discriminate].
Qed.

Lemma chat_ignores_listing_witness :
  chat (runtime_up (Obj []) (Obj [("response", Str "Hello!")])) hi empty_world
  = chat (runtime_no_tags (Obj [("response", Str "Hello!")])) hi empty_world.
Proof.
  apply (chat_ignores_listing
           (runtime_up (Obj []) (Obj [("response", Str "Hello!")]))
           (runtime_no_tags (Obj [("response", Str "Hello!")])) hi empty_world);
    reflexivity.
Defined.

(** C6: a POST /chat request whose [message] is missing or empty (or
    falsy in any other way) is answered with HTTP 400, and no request has
    gone to the runtime: the world is as it was. *)
Theorem chat_no_message E req w :
  truthy (message_of req) = false ->
  chat E req w
    = (inr (json (Obj [("error", Str "No message provided.")]) (status 400 res)), w) /\
  res_status (json (Obj [("error", Str "No message provided.")]) (status 400 res)) = 400 /\
  calls (snd (chat E req w)) = calls w.
Proof.
  intros Hm. rewrite (chat_rejects E req w Hm). repeat split.
Qed.

Lemma chat_no_message_witness :
  calls (snd (chat (runtime_up (Obj []) (Obj [])) no_message empty_world)) = [] /\
  calls (snd (chat runtime_down
                {| method := "POST"; body := [("message", Str "")] |} empty_world)) = [].
Proof.
  split.
  - apply (chat_no_message (runtime_up (Obj []) (Obj [])) no_message empty_world).
    reflexivity.
  - apply (chat_no_message runtime_down
             {| method := "POST"; body := [("message", Str "")] |} empty_world).
    reflexivity.
Defined.

(** ** Other verbs on [/chat] *)






(** ** The health report *)

(** When every listed entry has a readable [name], [some] finds the
    required model exactly when its name is among the names [map] gives. *)
Lemma some_name_is_spec lit l : forall names,
  map_name l = inr names ->
  exists b, some_name_is lit l = inr b /\ (b = true <-> In (Str lit) names).
Proof.
  induction l as [|m l IH]; intros names Hn; simpl in *.
  - injection Hn as <-. exists false. split; [reflexivity|].
    split; [discriminate | intros []].
  - destruct (get_prop m "name") as [e|n]; [discriminate|].
    destruct (map_name l) as [e|ns]; [discriminate|].
    injection Hn as <-.
    destruct (is_str n lit) eqn:Hs.
    + exists true. split; [reflexivity|]. split; [|reflexivity].
      intros _. left. now apply is_str_spec.
    + destruct (IH ns eq_refl) as [b [Hb Hin]]. exists b. split; [exact Hb|].
      rewrite Hin. simpl. split; [now right|].
      intros [Heq|H]; [|exact H].
      apply is_str_spec in Heq. congruence.
Qed.

Lemma health_rejected E w e :
  tags_result E w = Rejected e ->
  fst (health_ollama E w) = inr (unhealthy E (err_message e)).
Proof.
  unfold tags_result, health_ollama. intros H. cbn. unfold axios. now rewrite H.
Qed.

Lemma health_listed E w a l names :
  tags_result E w = Resolved a ->
  listed (ax_data a) = Some l ->
  map_name l = inr names ->
  exists b,
    fst (health_ollama E w) = inr (healthy E l names b) /\
    (b = true <-> In (Str MODEL) names).
Proof.
  unfold tags_result, health_ollama, listed. intros H Hl Hn.
  destruct (some_name_is_spec MODEL l names Hn) as [b [Hb Hin]].
  exists b. split; [|exact Hin].
  cbn. unfold axios. rewrite H. cbn.
  destruct (get_prop (ax_data a) "models") as [e|field]; [discriminate|]. cbn.
  destruct (js_or field (Arr [])); try discriminate.
  injection Hl as ->. cbn. rewrite Hb. cbn. rewrite Hn. reflexivity.
Qed.

(** Whatever the runtime does, the handler answers, with 200 or 503. *)
Lemma health_responds E w :
  exists r w', health_ollama E w = (inr r, w') /\ (res_status r = 200 \/ res_status r = 503).
Proof.
  unfold health_ollama. cbn. unfold axios.
  destruct (runtime E (calls w) _) as [a|e]; cbn; [|eauto 6].
  destruct (get_prop (ax_data a) "models") as [e|field]; cbn; [eauto 6|].
  destruct (js_or field (Arr [])) as [| |b|n|s|n|l|fs]; cbn; eauto 6.
  destruct (some_name_is MODEL l); cbn; [eauto 6|].
  destruct (map_name l); cbn; eauto 6.
Qed.

(** A listing whose entries cannot be read is reported as unhealthy too:
    the [TypeError] is caught like a network failure. *)
Example health_unreadable_listing :
  fst (health_ollama (runtime_up (Obj [("models", Arr [Null])]) (Obj [])) empty_world)
  = inr (unhealthy (runtime_up (Obj [("models", Arr [Null])]) (Obj []))
           "Cannot read properties of null (reading 'name')").
Proof. reflexivity. Qed.

(** C5: GET /health/ollama always answers and lets no error through.  If
    the model-listing call fails, the answer is HTTP 503 with status
    [unhealthy] and the failure's message in [error].  If it succeeds with
    a listing of entries that have names, the answer is HTTP 200 and
    [required_model_available] is true exactly when
    ['llama3.2:1b-instruct-q4_K_M'] is among the listed names. *)
Theorem health_report E w :
  (exists r w', health_ollama E w = (inr r, w')) /\
  (forall e, tags_result E w = Rejected e ->
     fst (health_ollama E w)
       = inr {| res_status := 503; res_headers := [];
                res_body := Json (Obj [("status", Str "unhealthy");
                                       ("error", Str (err_message e));
                                       ("ollama_url", Str (ollamaUrl E))]) |}) /\
  (forall a l names,
     tags_result E w = Resolved a ->
     listed (ax_data a) = Some l ->
     map_name l = inr names ->
     exists b,
       fst (health_ollama E w)
         = inr {| res_status := 200; res_headers := [];
                  res_body := Json (Obj [("status", Str "healthy");
                                         ("ollama_url", Str (ollamaUrl E));
                                         ("models_available", Num (Z.of_nat (length l)));
                                         ("required_model_available", Bool b);
                                         ("models", Arr names)]) |} /\
       (b = true <-> In (Str "llama3.2:1b-instruct-q4_K_M") names)).
Proof.
  split; [|split].
  - destruct (health_responds E w) as [r [w' [H _]]]. eauto.
  - intros e H. now rewrite (health_rejected E w e H).
  - intros a l names H Hl Hn.
    destruct (health_listed E w a l names H Hl Hn) as [b [Hb Hin]].
    exists b. split; [exact Hb | exact Hin].
Qed.

Lemma health_report_witness :
  fst (health_ollama runtime_down empty_world)
    = inr {| res_status := 503; res_headers := [];
             res_body := Json (Obj [("status", Str "unhealthy");
                                    ("error", Str "connect ECONNREFUSED 127.0.0.1:11434");
                                    ("ollama_url", Str "http://localhost:11434")]) |} /\
  fst (health_ollama
         (runtime_up (Obj [("models", Arr [Obj [("name", Str MODEL)]])]) (Obj []))
         empty_world)
    = inr {| res_status := 200; res_headers := [];
             res_body := Json (Obj [("status", Str "healthy");
                                    ("ollama_url", Str "http://ollama:11434");
                                    ("models_available", Num 1);
                                    ("required_model_available", Bool true);
                                    ("models", Arr [Str MODEL])]) |}.
Proof.
  split.
  - destruct (health_report runtime_down empty_world) as [_ [Hdown _]].
    apply (Hdown econnrefused). reflexivity.
  - destruct (health_report
                (runtime_up (Obj [("models", Arr [Obj [("name", Str MODEL)]])]) (Obj []))
                empty_world) as [_ [_ Hup]].
    destruct (Hup {| ax_status := 200;
                     ax_data := Obj [("models", Arr [Obj [("name", Str MODEL)]])] |}
                  [Obj [("name", Str MODEL)]] [Str MODEL] eq_refl eq_refl eq_refl)
      as [b [Hb Hin]].
    rewrite Hb. replace b with true; [reflexivity|].
    symmetry. apply Hin. left. reflexivity.
Defined.

(** C9: when the model-listing call succeeds and the required model is
    not among the listed names, GET /health/ollama still answers HTTP 200
    with status [healthy] and [required_model_available] false; a response
    without a [models] field counts as an empty listing.  The model's
    presence changes neither the status code nor the health flag. *)
Theorem health_without_model E w a :
  tags_result E w = Resolved a ->
  (forall l names,
     listed (ax_data a) = Some l ->
     map_name l = inr names ->
     ~ In (Str "llama3.2:1b-instruct-q4_K_M") names ->
     fst (health_ollama E w)
       = inr {| res_status := 200; res_headers := [];
                res_body := Json (Obj [("status", Str "healthy");
                                       ("ollama_url", Str (ollamaUrl E));
                                       ("models_available", Num (Z.of_nat (length l)));
                                       ("required_model_available", Bool false);
                                       ("models", Arr names)]) |}) /\
  (forall fields,
     ax_data a = Obj fields ->
     assoc "models" fields = None ->
     fst (health_ollama E w)
       = inr {| res_status := 200; res_headers := [];
                res_body := Json (Obj [("status", Str "healthy");
                                       ("ollama_url", Str (ollamaUrl E));
                                       ("models_available", Num 0);
                                       ("required_model_available", Bool false);
                                       ("models", Arr [])]) |}).
Proof.
  intros H. split.
  - intros l names Hl Hn Hnot.
    destruct (health_listed E w a l names H Hl Hn) as [b [Hb Hin]].
    rewrite Hb. destruct b; [|reflexivity].
    exfalso. apply Hnot, Hin. reflexivity.
  - intros fields Hd Hnone.
    assert (Hl : listed (ax_data a) = Some []).
    { unfold listed. rewrite Hd. simpl. now rewrite Hnone. }
    destruct (health_listed E w a [] [] H Hl eq_refl) as [b [Hb Hin]].
    rewrite Hb. destruct b; [|reflexivity].
    exfalso. now apply Hin.
Qed.

Lemma health_without_model_witness :
  fst (health_ollama (runtime_up (Obj [("models", Arr [Obj [("name", Str "mistral:7b")]])])
                        (Obj [])) empty_world)
    = inr {| res_status := 200; res_headers := [];
             res_body := Json (Obj [("status", Str "healthy");
                                    ("ollama_url", Str "http://ollama:11434");
                                    ("models_available", Num 1);
                                    ("required_model_available", Bool false);
                                    ("models", Arr [Str "mistral:7b"])]) |} /\
  fst (health_ollama (runtime_up (Obj []) (Obj [])) empty_world)
    = inr {| res_status := 200; res_headers := [];
             res_body := Json (Obj [("status", Str "healthy");
                                    ("ollama_url", Str "http://ollama:11434");
                                    ("models_available", Num 0);
                                    ("required_model_available", Bool false);
                                    ("models", Arr [])]) |}.
Proof.
  split.
  - destruct (health_without_model
                (runtime_up (Obj [("models", Arr [Obj [("name", Str "mistral:7b")]])])
                   (Obj [])) empty_world
                {| ax_status := 200;
                   ax_data := Obj [("models", Arr [Obj [("name", Str "mistral:7b")]])] |}
                eq_refl) as [Hl _].
    apply (Hl [Obj [("name", Str "mistral:7b")]] [Str "mistral:7b"]);
      [reflexivity | reflexivity |].
    intros [Heq|[]]. discriminate Heq.
  - destruct (health_without_model (runtime_up (Obj []) (Obj [])) empty_world
                {| ax_status := 200; ax_data := Obj [] |} eq_refl) as [_ Hnone].
    apply (Hnone []); reflexivity.
Defined.

(** ** Login *)

Lemma find_some_in {A : Type} (f : A -> bool) (l : list A) (x : A) :
  find f l = Some x -> In x l /\ f x = true.
Proof. apply find_some. Qed.

(** With the store down [User.findOne] rejects and nothing in the
    handler catches it: no response is sent. *)
Lemma login_store_offline bcrypt_compare b w key pw :
  li_usernameOrEmail b = Some key -> key <> "" ->
  li_password b = Some pw -> pw <> "" ->
  store_online w = false ->
  exists e, login bcrypt_compare b w = (inl e, w).
Proof.
  intros Hk Hk0 Hp Hp0 Hoff. unfold login, User_findOne. rewrite Hk, Hp. cbn.
  apply String.eqb_neq in Hk0, Hp0. rewrite Hk0, Hp0. cbn. rewrite Hoff. cbn.
  eauto.
Qed.

(** C2: a POST /login request with non-empty [usernameOrEmail] and
    [password] looks up the first stored user whose username or email is
    [usernameOrEmail].  If there is one and the password verifies against
    its hash, the answer is HTTP 200 with the user's id, username, email
    and phone, and no field for the hash.  If there is none, or the
    password does not verify, the answer is HTTP 401 with one and the same
    body. *)
Theorem login_outcomes bcrypt_compare b w key pw :
  li_usernameOrEmail b = Some key -> key <> "" ->
  li_password b = Some pw -> pw <> "" ->
  store_online w = true ->
  let found := find (fun u => same_username key u || same_email key u) (users w) in
  (forall u, found = Some u ->
     In u (users w) /\ (username u = key \/ email u = key)) /\
  (forall u, found = Some u -> bcrypt_compare pw (passwordHash u) = true ->
     login bcrypt_compare b w
       = (inr {| res_status := 200; res_headers := [];
                 res_body := Json (Obj [("message", Str "Login successful");
                                        ("userId", Oid (_id u));
                                        ("username", Str (username u));
                                        ("email", Str (email u));
                                        ("phone", of_opt (phone u))]) |}, w)) /\
  (found = None ->
     login bcrypt_compare b w
       = (inr {| res_status := 401; res_headers := [];
                 res_body := Json (Obj [("error", Str "Invalid credentials")]) |}, w)) /\
  (forall u, found = Some u -> bcrypt_compare pw (passwordHash u) = false ->
     login bcrypt_compare b w
       = (inr {| res_status := 401; res_headers := [];
                 res_body := Json (Obj [("error", Str "Invalid credentials")]) |}, w)).
Proof.
  intros Hk Hk0 Hp Hp0 Hon found.
  assert (Hrun : login bcrypt_compare b w =
    match found with
    | Some u =>
        if bcrypt_compare pw (passwordHash u)
        then (inr (json (Obj [("message", Str "Login successful");
                              ("userId", Oid (_id u));
                              ("username", Str (username u));
                              ("email", Str (email u));
                              ("phone", of_opt (phone u))]) res), w)
        else (inr invalid_credentials, w)
    | None => (inr invalid_credentials, w)
    end).
  { unfold login, User_findOne, found. rewrite Hk, Hp. cbn.
    apply String.eqb_neq in Hk0, Hp0. rewrite Hk0, Hp0. cbn. rewrite Hon. cbn.
    destruct (find _ (users w)) as [u|]; [|reflexivity].
    destruct (bcrypt_compare pw (passwordHash u)); reflexivity. }
  repeat split.
  - apply find_some_in in H. tauto.
  - apply find_some_in in H as [_ H]. unfold same_username, same_email in H.
    apply orb_true_iff in H as [H|H]; apply String.eqb_eq in H; auto.
  - intros u Hu Hc. rewrite Hrun, Hu, Hc. reflexivity.
  - intros Hn. rewrite Hrun, Hn. reflexivity.
  - intros u Hu Hc. rewrite Hrun, Hu, Hc. reflexivity.
Qed.

Lemma login_outcomes_witness :
  login toy_compare {| li_usernameOrEmail := Some "alice@example.org";
                       li_password := Some "wonderland" |} one_user
    = (inr {| res_status := 200; res_headers := [];
              res_body := Json (Obj [("message", Str "Login successful");
                                     ("userId", Oid 0);
                                     ("username", Str "alice");
                                     ("email", Str "alice@example.org");
                                     ("phone", Undefined)]) |}, one_user) /\
  login toy_compare {| li_usernameOrEmail := Some "alice";
                       li_password := Some "looking-glass" |} one_user
    = login toy_compare {| li_usernameOrEmail := Some "bob";
                           li_password := Some "looking-glass" |} one_user.
Proof.
  split.
  - destruct (login_outcomes toy_compare
                {| li_usernameOrEmail := Some "alice@example.org";
                   li_password := Some "wonderland" |} one_user
                "alice@example.org" "wonderland"
                eq_refl ltac:(discriminate) eq_refl ltac:(discriminate) eq_refl)
      as [_ [Hok _]].
    apply (Hok alice); reflexivity.
  - destruct (login_outcomes toy_compare
                {| li_usernameOrEmail := Some "alice";
                   li_password := Some "looking-glass" |} one_user
                "alice" "looking-glass"
                eq_refl ltac:(discriminate) eq_refl ltac:(discriminate) eq_refl)
      as [_ [_ [_ Hbad]]].
    destruct (login_outcomes toy_compare
                {| li_usernameOrEmail := Some "bob";
                   li_password := Some "looking-glass" |} one_user
                "bob" "looking-glass"
                eq_refl ltac:(discriminate) eq_refl ltac:(discriminate) eq_refl)
      as [_ [_ [Hnone _]]].
    rewrite (Hbad alice eq_refl eq_refl). rewrite (Hnone eq_refl). reflexivity.
Defined.

(** ** Signup *)

Lemma existsb_username u l :
  existsb (same_username u) l = true <-> exists d, In d l /\ username d = u.
Proof.
  rewrite existsb_exists. unfold same_username.
  split; intros [d [Hin H]]; exists d; split; auto; now apply String.eqb_eq.
Qed.

Lemma existsb_email e l :
  existsb (same_email e) l = true <-> exists d, In d l /\ email d = e.
Proof.
  rewrite existsb_exists. unfold same_email.
  split; intros [d [Hin H]]; exists d; split; auto; now apply String.eqb_eq.
Qed.

(** C3: a POST /signup request with non-empty [username], [email] and
    [password].  If the store takes the new document, the answer is HTTP
    201 with the new record's identifier and nothing of the password or
    its hash, and the record is the last of the collection.  If the store
    turns it down (duplicate username, duplicate email, or anything else),
    the answer is one and the same HTTP 400 error, and the collection is
    as it was. *)
Theorem signup_outcomes bcrypt_hash b w u e p :
  su_username b = Some u -> u <> "" ->
  su_email b = Some e -> e <> "" ->
  su_password b = Some p -> p <> "" ->
  let h := bcrypt_hash (salts w) p 10 in
  (~ turned_down w u e h ->
   exists w',
     signup bcrypt_hash b w
       = (inr {| res_status := 201; res_headers := [];
                 res_body := Json (Obj [("message", Str "User created");
                                        ("userId", Oid (next_id w))]) |}, w') /\
     users w' = (users w ++ [{| _id := next_id w; username := u; email := e;
                                passwordHash := h; phone := su_phone b |}])%list) /\
  (turned_down w u e h ->
   exists w',
     signup bcrypt_hash b w
       = (inr {| res_status := 400; res_headers := [];
                 res_body := Json (Obj [("error",
                   Str "User already exists or invalid data")]) |}, w') /\
     users w' = users w /\
     length (users w') = length (users w)).
Proof.
  intros Hu Hu0 He He0 Hp Hp0 h.
  apply String.eqb_neq in Hu0, He0, Hp0.
  assert (Hrun : signup bcrypt_hash b w =
    let w1 := {| users := users w; next_id := next_id w;
                 store_online := store_online w; salts := S (salts w);
                 calls := calls w |} in
    if (h =? "")%string || negb (store_online w)
       || existsb (same_username u) (users w) || existsb (same_email e) (users w)
    then (inr conflict_or_invalid, w1)
    else (inr (json (Obj [("message", Str "User created");
                          ("userId", Oid (next_id w))]) (status 201 res)),
          {| users := users w ++ [{| _id := next_id w; username := u; email := e;
                                     passwordHash := h; phone := su_phone b |}];
             next_id := S (next_id w);
             store_online := store_online w; salts := S (salts w);
             calls := calls w |})).
  { unfold signup, hash, User_create. rewrite Hu, He, Hp. cbn.
    rewrite Hu0, He0, Hp0. cbn. fold h.
    destruct (h =? "")%string; cbn; [reflexivity|].
    destruct (store_online w); cbn; [|reflexivity].
    destruct (existsb (same_username u) (users w)); cbn; [reflexivity|].
    destruct (existsb (same_email e) (users w)); reflexivity. }
  rewrite Hrun. cbv zeta. split.
  - intros Hnot.
    destruct (String.eqb_spec h "") as [Hh|_];
      [exfalso; apply Hnot; right; now left|].
    destruct (store_online w) eqn:Hon;
      [|exfalso; apply Hnot; now left].
    destruct (existsb (same_username u) (users w)) eqn:Hdu;
      [exfalso; apply Hnot; right; right; left; now apply existsb_username|].
    destruct (existsb (same_email e) (users w)) eqn:Hde;
      [exfalso; apply Hnot; right; right; right; now apply existsb_email|].
    cbn. eexists. split; reflexivity.
  - intros Hdown.
    assert (Hc : (h =? "")%string || negb (store_online w)
                 || existsb (same_username u) (users w)
                 || existsb (same_email e) (users w) = true).
    { destruct Hdown as [Hon|[Hh|[Hd|Hd]]].
      - rewrite Hon. cbn. now rewrite orb_true_r.
      - rewrite Hh. reflexivity.
      - apply existsb_username in Hd. rewrite Hd. cbn. now rewrite orb_true_r.
      - apply existsb_email in Hd. rewrite Hd. now rewrite orb_true_r. }
    rewrite Hc. eexists. repeat split.
Qed.

Lemma signup_outcomes_witness :
  (exists w',
     signup toy_hash {| su_username := Some "bob"; su_email := Some "bob@example.org";
                        su_password := Some "builder"; su_phone := None |} one_user
       = (inr {| res_status := 201; res_headers := [];
                 res_body := Json (Obj [("message", Str "User created");
                                        ("userId", Oid 1)]) |}, w') /\
     users w' = [alice; {| _id := 1%nat; username := "bob"; email := "bob@example.org";
                           passwordHash := "$2a$builder"; phone := None |}]) /\
  (exists w',
     signup toy_hash {| su_username := Some "alice"; su_email := Some "other@example.org";
                        su_password := Some "builder"; su_phone := None |} one_user
       = (inr {| res_status := 400; res_headers := [];
                 res_body := Json (Obj [("error",
                   Str "User already exists or invalid data")]) |}, w') /\
     users w' = [alice] /\
     length (users w') = 1%nat).
Proof.
  split.
  - destruct (signup_outcomes toy_hash
                {| su_username := Some "bob"; su_email := Some "bob@example.org";
                   su_password := Some "builder"; su_phone := None |} one_user
                "bob" "bob@example.org" "builder"
                eq_refl ltac:(discriminate) eq_refl ltac:(discriminate)
                eq_refl ltac:(discriminate)) as [Hnew _].
    apply Hnew.
    intros [H|[H|[[d [[<-|[]] H]]|[d [[<-|[]] H]]]]]; discriminate H.
  - destruct (signup_outcomes toy_hash
                {| su_username := Some "alice"; su_email := Some "other@example.org";
                   su_password := Some "builder"; su_phone := None |} one_user
                "alice" "other@example.org" "builder"
                eq_refl ltac:(discriminate) eq_refl ltac:(discriminate)
                eq_refl ltac:(discriminate)) as [_ Hdup].
    apply Hdup. right. right. left. exists alice. split; [now left | reflexivity].
Defined.

(** * Further properties of the handlers *)

(** ** Validation comes first *)

Lemma truthy_of_opt o : truthy (of_opt o) = negb (text o =? "")%string.
Proof. destruct o; reflexivity. Qed.

(** An incomplete signup is turned away at once. *)
Lemma signup_incomplete bcrypt_hash b w :
  text (su_username b) = "" \/ text (su_email b) = "" \/ text (su_password b) = "" ->
  signup bcrypt_hash b w
    = (inr (json (Obj [("error", Str "Missing fields")]) (status 400 res)), w).
Proof.
  intros H. unfold signup. rewrite !truthy_of_opt, !negb_involutive.
  assert (Hc : (text (su_username b) =? "")%string || (text (su_email b) =? "")%string
               || (text (su_password b) =? "")%string = true).
  { destruct H as [H|[H|H]]; rewrite H; cbn; rewrite ?orb_true_r; reflexivity. }
  rewrite Hc. reflexivity.
Qed.

(** X1: a signup whose [username], [email] or [password] is absent or
    empty is answered with HTTP 400 [Missing fields] before anything
    happens: no salt is drawn, the store is not asked, the world is as it
    was, even with the store down. *)
Theorem signup_missing_fields bcrypt_hash b w :
  text (su_username b) = "" \/ text (su_email b) = "" \/ text (su_password b) = "" ->
  signup bcrypt_hash b w
    = (inr {| res_status := 400; res_headers := [];
              res_body := Json (Obj [("error", Str "Missing fields")]) |}, w).
Proof.
  intros H. now rewrite (signup_incomplete bcrypt_hash b w H).
Qed.

Lemma signup_missing_fields_witness :
  signup toy_hash {| su_username := Some "bob"; su_email := None;
                     su_password := Some "builder"; su_phone := None |} one_user
    = (inr {| res_status := 400; res_headers := [];
              res_body := Json (Obj [("error", Str "Missing fields")]) |}, one_user).
Proof.
  apply (signup_missing_fields toy_hash
           {| su_username := Some "bob"; su_email := None;
              su_password := Some "builder"; su_phone := None |} one_user).
  right. left. reflexivity.
Defined.

(** X2: a login whose [usernameOrEmail] or [password] is absent or empty
    is answered with HTTP 400 [Missing fields] without a lookup; this
    holds with the store down too, where a complete login would throw. *)
Theorem login_missing_fields bcrypt_compare b w :
  text (li_usernameOrEmail b) = "" \/ text (li_password b) = "" ->
  login bcrypt_compare b w
    = (inr {| res_status := 400; res_headers := [];
              res_body := Json (Obj [("error", Str "Missing fields")]) |}, w).
Proof.
  intros H. unfold login. rewrite !truthy_of_opt, !negb_involutive.
  assert (Hc : (text (li_usernameOrEmail b) =? "")%string
               || (text (li_password b) =? "")%string = true).
  { destruct H as [H|H]; rewrite H; cbn; rewrite ?orb_true_r; reflexivity. }
  rewrite Hc. reflexivity.
Qed.

Lemma login_missing_fields_witness :
  login toy_compare {| li_usernameOrEmail := Some "alice"; li_password := Some "" |}
    {| users := [alice]; next_id := 1%nat; store_online := false;
       salts := 1%nat; calls := [] |}
    = (inr {| res_status := 400; res_headers := [];
              res_body := Json (Obj [("error", Str "Missing fields")]) |},
       {| users := [alice]; next_id := 1%nat; store_online := false;
          salts := 1%nat; calls := [] |}).
Proof.
  apply (login_missing_fields toy_compare
           {| li_usernameOrEmail := Some "alice"; li_password := Some "" |}
           {| users := [alice]; next_id := 1%nat; store_online := false;
              salts := 1%nat; calls := [] |}).
  right. reflexivity.
Defined.

(** X3: login only reads.  Whatever the request and whether the handler
    answers or throws, the world after it is the world before it: no
    document is written, no salt drawn, no call made to the runtime. *)
Theorem login_reads_only bcrypt_compare b w :
  snd (login bcrypt_compare b w) = w.
Proof.
  unfold login, User_findOne. cbn.
  destruct (negb (truthy (of_opt (li_usernameOrEmail b)))
            || negb (truthy (of_opt (li_password b)))); [reflexivity|].
  cbn. destruct (store_online w); cbn; [|reflexivity].
  destruct (find _ (users w)) as [u|]; [|reflexivity].
  destruct (bcrypt_compare _ (passwordHash u)); reflexivity.
Qed.

(** ** What a signup does to the store *)

(** A signup with its three fields: the hash is made first, then the
    store decides. *)
Lemma signup_run bcrypt_hash b w :
  text (su_username b) <> "" -> text (su_email b) <> "" ->
  text (su_password b) <> "" ->
  let u := text (su_username b) in
  let e := text (su_email b) in
  let h := bcrypt_hash (salts w) (text (su_password b)) 10 in
  signup bcrypt_hash b w =
    if (h =? "")%string || negb (store_online w)
       || existsb (same_username u) (users w) || existsb (same_email e) (users w)
    then (inr conflict_or_invalid,
          {| users := users w; next_id := next_id w;
             store_online := store_online w; salts := S (salts w);
             calls := calls w |})
    else (inr (json (Obj [("message", Str "User created");
                          ("userId", Oid (next_id w))]) (status 201 res)),
          {| users := users w ++ [{| _id := next_id w; username := u; email := e;
                                     passwordHash := h; phone := su_phone b |}];
             next_id := S (next_id w);
             store_online := store_online w; salts := S (salts w);
             calls := calls w |}).
Proof.
  intros Hu He Hp u e h.
  apply String.eqb_neq in Hu, He, Hp.
  unfold signup, hash, User_create. rewrite !truthy_of_opt, Hu, He, Hp. cbn.
  fold u e h.
  destruct (h =? "")%string; cbn; [reflexivity|].
  destruct (store_online w); cbn; [|reflexivity].
  destruct (existsb (same_username u) (users w)); cbn; [reflexivity|].
  destruct (existsb (same_email e) (users w)); reflexivity.
Qed.

Lemma NoDup_snoc {A : Type} (l : list A) (x : A) :
  NoDup l -> ~ In x l -> NoDup (l ++ [x]).
Proof.
  intros Hl Hx. induction Hl as [|y l Hy Hl IH]; simpl.
  - constructor; [intros []|constructor].
  - constructor.
    + rewrite in_app_iff. simpl. intros [H|[H|[]]]; [now apply Hy|].
      subst. apply Hx. now left.
    + apply IH. intros H. apply Hx. now right.
Qed.

(** X4: signup keeps the store well formed.  From a collection without
    duplicate usernames, emails or identifiers, every signup request,
    complete or not, accepted or not, leaves such a collection, and every
    identifier stays below the next free one. *)
Theorem signup_keeps_store_wf bcrypt_hash b w :
  store_wf w -> store_wf (snd (signup bcrypt_hash b w)).
Proof.
  intros Hwf.
  destruct (String.eqb_spec (text (su_username b)) "") as [Hu|Hu];
    [rewrite signup_incomplete; auto|].
  destruct (String.eqb_spec (text (su_email b)) "") as [He|He];
    [rewrite signup_incomplete; auto|].
  destruct (String.eqb_spec (text (su_password b)) "") as [Hp|Hp];
    [rewrite signup_incomplete; auto|].
  rewrite (signup_run bcrypt_hash b w Hu He Hp). cbv zeta.
  destruct Hwf as [Hnu [Hne [Hni Hlt]]].
  destruct (_ =? "")%string; cbn; [repeat split; assumption|].
  destruct (store_online w); cbn; [|repeat split; assumption].
  destruct (existsb (same_username _) (users w)) eqn:Hdu; cbn;
    [repeat split; assumption|].
  destruct (existsb (same_email _) (users w)) eqn:Hde; cbn;
    [repeat split; assumption|].
  unfold store_wf. cbn. rewrite !map_app. cbn. repeat split.
  - apply NoDup_snoc; [assumption|]. intros Hin. apply in_map_iff in Hin.
    destruct Hin as [d [Hd Hin]].
    assert (Hex : existsb (same_username (text (su_username b))) (users w) = true)
      by (apply existsb_username; eauto).
    congruence.
  - apply NoDup_snoc; [assumption|]. intros Hin. apply in_map_iff in Hin.
    destruct Hin as [d [Hd Hin]].
    assert (Hex : existsb (same_email (text (su_email b))) (users w) = true)
      by (apply existsb_email; eauto).
    congruence.
  - apply NoDup_snoc; [assumption|]. intros Hin. apply in_map_iff in Hin.
    destruct Hin as [d [Hd Hin]].
    rewrite Forall_forall in Hlt. specialize (Hlt d Hin).
    rewrite Hd in Hlt. now apply Nat.lt_irrefl in Hlt.
  - apply Forall_app. split.
    + eapply Forall_impl; [|exact Hlt]. intros d Hd. cbn in *.
      now apply Nat.lt_lt_succ_r.
    + constructor; [apply Nat.lt_succ_diag_r|constructor].
Qed.

Lemma signup_keeps_store_wf_witness :
  store_wf (snd (signup toy_hash
                   {| su_username := Some "bob"; su_email := Some "bob@example.org";
                      su_password := Some "builder"; su_phone := None |} one_user)).
Proof.
  apply (signup_keeps_store_wf toy_hash
           {| su_username := Some "bob"; su_email := Some "bob@example.org";
              su_password := Some "builder"; su_phone := None |} one_user).
  unfold store_wf. cbn.
  repeat split; repeat constructor; intros [].
Defined.

(** ** Signup, then login *)

Lemma find_app_none {A : Type} (f : A -> bool) (l l' : list A) :
  (forall x, In x l -> f x = false) -> find f (l ++ l') = find f l'.
Proof.
  induction l as [|x l IH]; intros H; simpl; [reflexivity|].
  rewrite (H x (or_introl eq_refl)). apply IH. intros y Hy. apply H. now right.
Qed.

Lemma not_turned_down w u e h :
  ~ turned_down w u e h ->
  (h =? "")%string || negb (store_online w)
  || existsb (same_username u) (users w) || existsb (same_email e) (users w) = false.
Proof.
  intros Hnot.
  destruct (String.eqb_spec h "") as [Hh|_];
    [exfalso; apply Hnot; right; now left|].
  destruct (store_online w) eqn:Hon;
    [|exfalso; apply Hnot; now left].
  destruct (existsb (same_username u) (users w)) eqn:Hdu;
    [exfalso; apply Hnot; right; right; left; now apply existsb_username|].
  destruct (existsb (same_email e) (users w)) eqn:Hde;
    [exfalso; apply Hnot; right; right; right; now apply existsb_email|].
  reflexivity.
Qed.

(** X5: an account that has just been created can log in.  When
    [bcrypt.compare] accepts what [bcrypt.hash] makes, the store takes the
    signup, and no stored document answers to [key], the new username or
    the new email, then the login with [key] and the same password that
    follows is answered with HTTP 200 and the identifier the signup
    returned. *)
Theorem signup_then_login bcrypt_hash bcrypt_compare b w u e p key :
  su_username b = Some u -> u <> "" ->
  su_email b = Some e -> e <> "" ->
  su_password b = Some p -> p <> "" ->
  verifies bcrypt_hash bcrypt_compare ->
  ~ turned_down w u e (bcrypt_hash (salts w) p 10) ->
  key = u \/ key = e ->
  (forall d, In d (users w) -> username d <> key /\ email d <> key) ->
  exists w',
    (created <- signup bcrypt_hash b ;;
     entered <- login bcrypt_compare
                  {| li_usernameOrEmail := Some key; li_password := Some p |} ;;
     ret (created, entered)) w
    = (inr ({| res_status := 201; res_headers := [];
               res_body := Json (Obj [("message", Str "User created");
                                      ("userId", Oid (next_id w))]) |},
            {| res_status := 200; res_headers := [];
               res_body := Json (Obj [("message", Str "Login successful");
                                      ("userId", Oid (next_id w));
                                      ("username", Str u);
                                      ("email", Str e);
                                      ("phone", of_opt (su_phone b))]) |}), w').
Proof.
  intros Hu Hu0 He He0 Hp Hp0 Hver Hnot Hkey Hfree.
  assert (Hk0 : key <> "") by (destruct Hkey; now subst).
  rewrite bind_run, signup_run; rewrite ?Hu, ?He, ?Hp; cbn [text]; try assumption.
  cbv zeta. rewrite (not_turned_down _ _ _ _ Hnot).
  assert (Hon : store_online w = true).
  { destruct (store_online w) eqn:Hon; [reflexivity|]. exfalso. apply Hnot. now left. }
  rewrite bind_run. unfold login, User_findOne. cbn.
  apply String.eqb_neq in Hk0, Hp0. rewrite Hk0, Hp0. cbn. rewrite Hon. cbn.
  rewrite find_app_none.
  - cbn. unfold same_username, same_email. cbn.
    assert (Hm : (u =? key)%string || (e =? key)%string = true).
    { destruct Hkey; subst; rewrite String.eqb_refl; cbn;
        rewrite ?orb_true_r; reflexivity. }
    rewrite Hm. cbn. rewrite Hver. eexists. reflexivity.
  - intros d Hd. destruct (Hfree d Hd) as [H1 H2].
    unfold same_username, same_email.
    apply String.eqb_neq in H1, H2. now rewrite H1, H2.
Qed.

Lemma signup_then_login_witness :
  exists w',
    (created <- signup toy_hash
                  {| su_username := Some "bob"; su_email := Some "bob@example.org";
                     su_password := Some "builder"; su_phone := Some "555" |} ;;
     entered <- login toy_compare
                  {| li_usernameOrEmail := Some "bob@example.org";
                     li_password := Some "builder" |} ;;
     ret (created, entered)) one_user
    = (inr ({| res_status := 201; res_headers := [];
               res_body := Json (Obj [("message", Str "User created");
                                      ("userId", Oid 1)]) |},
            {| res_status := 200; res_headers := [];
               res_body := Json (Obj [("message", Str "Login successful");
                                      ("userId", Oid 1);
                                      ("username", Str "bob");
                                      ("email", Str "bob@example.org");
                                      ("phone", Str "555")]) |}), w').
Proof.
  apply (signup_then_login toy_hash toy_compare
           {| su_username := Some "bob"; su_email := Some "bob@example.org";
              su_password := Some "builder"; su_phone := Some "555" |}
           one_user "bob" "bob@example.org" "builder" "bob@example.org");
    try reflexivity; try discriminate.
  - intros salt password rounds. apply String.eqb_refl.
  - intros [H|[H|[[d [[<-|[]] H]]|[d [[<-|[]] H]]]]]; discriminate H.
  - now right.
  - intros d [<-|[]]. split; discriminate.
Defined.

(** X6: the unique indexes are one per field.  A signup whose username
    is the email of a stored account is taken like any other, and from
    then on the query of login for that text matches two different
    documents. *)
Theorem signup_cross_field bcrypt_hash b w u e p d0 :
  su_username b = Some u -> u <> "" ->
  su_email b = Some e -> e <> "" ->
  su_password b = Some p -> p <> "" ->
  ~ turned_down w u e (bcrypt_hash (salts w) p 10) ->
  In d0 (users w) -> email d0 = u ->
  exists w' d1,
    signup bcrypt_hash b w
      = (inr {| res_status := 201; res_headers := [];
                res_body := Json (Obj [("message", Str "User created");
                                       ("userId", Oid (_id d1))]) |}, w') /\
    In d0 (users w') /\ In d1 (users w') /\ d0 <> d1 /\
    same_username u d0 || same_email u d0 = true /\
    same_username u d1 || same_email u d1 = true.
Proof.
  intros Hu Hu0 He He0 Hp Hp0 Hnot Hin Hmail.
  rewrite signup_run; rewrite ?Hu, ?He, ?Hp; cbn [text]; try assumption.
  cbv zeta. rewrite (not_turned_down _ _ _ _ Hnot).
  eexists.
  exists {| _id := next_id w; username := u; email := e;
            passwordHash := bcrypt_hash (salts w) p 10; phone := su_phone b |}.
  split; [reflexivity|]. cbn.
  repeat split.
  - apply in_app_iff. now left.
  - apply in_app_iff. right. now left.
  - intros ->. apply Hnot. right. right. left. eexists. split; [exact Hin|reflexivity].
  - unfold same_email. rewrite Hmail, String.eqb_refl. apply orb_true_r.
  - unfold same_username. cbn. now rewrite String.eqb_refl.
Qed.

Lemma signup_cross_field_witness :
  exists w' d1,
    signup toy_hash {| su_username := Some "bob"; su_email := Some "bob@example.org";
                       su_password := Some "builder"; su_phone := None |} carol_only
      = (inr {| res_status := 201; res_headers := [];
                res_body := Json (Obj [("message", Str "User created");
                                       ("userId", Oid (_id d1))]) |}, w') /\
    In carol (users w') /\ In d1 (users w') /\ carol <> d1 /\
    same_username "bob" carol || same_email "bob" carol = true /\
    same_username "bob" d1 || same_email "bob" d1 = true.
Proof.
  apply (signup_cross_field toy_hash
           {| su_username := Some "bob"; su_email := Some "bob@example.org";
              su_password := Some "builder"; su_phone := None |}
           carol_only "bob" "bob@example.org" "builder" carol);
    try reflexivity; try discriminate.
  - intros [H|[H|[[d [[<-|[]] H]]|[d [[<-|[]] H]]]]]; discriminate H.
  - now left.
Defined.

(** ** The chat relay: answers of the runtime it does not relay *)

(** X7: a generation call that resolves with a status other than 200 is
    not relayed: whatever its body, the answer is HTTP 500 with the fixed
    text [Ollama API error.] *)
Theorem chat_non_200 E req w a :
  truthy (message_of req) = true ->
  generate_result E req w = Resolved a ->
  ax_status a <> 200 ->
  fst (chat E req w)
    = inr {| res_status := 500; res_headers := [];
             res_body := Json (Obj [("error", Str "Ollama API error.")]) |}.
Proof.
  intros Hm Hg Hs. rewrite (chat_run E req w Hm), Hg.
  apply Z.eqb_neq in Hs. now rewrite Hs.
Qed.

Lemma chat_non_200_witness :
  fst (chat {| OLLAMA_URL := None;
               runtime := fun _ _ =>
                 Resolved {| ax_status := 204;
                             ax_data := Obj [("response", Str "Hello!")] |} |}
         hi empty_world)
    = inr {| res_status := 500; res_headers := [];
             res_body := Json (Obj [("error", Str "Ollama API error.")]) |}.
Proof.
  apply (chat_non_200
           {| OLLAMA_URL := None;
              runtime := fun _ _ =>
                Resolved {| ax_status := 204;
                            ax_data := Obj [("response", Str "Hello!")] |} |}
           hi empty_world
           {| ax_status := 204; ax_data := Obj [("response", Str "Hello!")] |});
    [reflexivity | reflexivity | discriminate].
Defined.

(** Reading a property throws nothing but a plain [TypeError]. *)
Lemma get_prop_error v k e :
  get_prop v k = inl e -> err_code e = None /\ err_response e = None.
Proof.
  destruct v; simpl; intros H; try discriminate; injection H as <-; split; reflexivity.
Qed.

(** X8: a generation call that resolves with HTTP 200 and a body without
    properties ([null]) is caught by the handler's own [catch]: the
    [TypeError] is answered like an unknown downstream failure, HTTP 500
    with the error's message after the fixed prefix. *)
Theorem chat_body_without_properties E req w a e :
  truthy (message_of req) = true ->
  generate_result E req w = Resolved a ->
  ax_status a = 200 ->
  get_prop (ax_data a) "response" = inl e ->
  fst (chat E req w)
    = inr {| res_status := 500; res_headers := [];
             res_body := Json (Obj [("error",
               Str ("Failed to get response from Ollama: " ++ err_message e))]) |}.
Proof.
  intros Hm Hg Hs He. rewrite (chat_run E req w Hm), Hg, Hs, He. cbn.
  destruct (get_prop_error _ _ _ He) as [Hc Hr].
  unfold chat_catch. now rewrite Hc, Hr.
Qed.

Lemma chat_body_without_properties_witness :
  fst (chat (runtime_up (Obj []) Null) hi empty_world)
    = inr {| res_status := 500; res_headers := [];
             res_body := Json (Obj [("error",
               Str ("Failed to get response from Ollama: "
                    ++ "Cannot read properties of null (reading 'response')"))]) |}.
Proof.
  apply (chat_body_without_properties (runtime_up (Obj []) Null) hi empty_world
           {| ax_status := 200; ax_data := Null |}
           (TypeError "Cannot read properties of null (reading 'response')"));
    reflexivity.
Defined.

(** X9: whenever the relay sends an answer, its status is one of five,
    and by then it has left everything but the call log alone: the store
    and the salts are as they were, and the log has grown by nothing (no
    message) or by the listing call followed by the generation call.
    Nothing is said here of a listing call that never settles. *)
Theorem chat_answer_frame E req w r w' :
  chat E req w = (inr r, w') ->
  In (res_status r) [200; 400; 404; 500; 503] /\
  users w' = users w /\ next_id w' = next_id w /\
  store_online w' = store_online w /\ salts w' = salts w /\
  (calls w' = calls w \/
   calls w' = (calls w ++ [tags_call E; generate_call E (message_of req)])%list).
Proof.
  intros Hc. split; [now apply chat_codes in Hc|].
  destruct (truthy (message_of req)) eqn:Hm.
  - rewrite (chat_run E req w Hm) in Hc. injection Hc as _ <-.
    unfold chat_world. cbn. repeat split. right. now rewrite <- app_assoc.
  - rewrite (chat_rejects E req w Hm) in Hc. injection Hc as _ <-.
    repeat split. now left.
Qed.

Lemma chat_answer_frame_witness :
  In (res_status (chat_catch econnrefused)) [200; 400; 404; 500; 503] /\
  users (chat_world runtime_down hi empty_world) = [] /\
  calls (chat_world runtime_down hi empty_world)
    = [tags_call runtime_down; generate_call runtime_down (Str "hi")].
Proof.
  destruct (chat_answer_frame runtime_down hi empty_world
              (chat_catch econnrefused) (chat_world runtime_down hi empty_world)
              eq_refl) as [Hs [Hu _]].
  split; [exact Hs|]. split; [exact Hu|reflexivity].
Defined.

(** ** The health report: listings it cannot read *)

(** [some] may stop early, [map] does not; when [map] fails, [some] has
    either failed on the same entry or gone through. *)
Lemma some_before_map lit l e :
  map_name l = inl e ->
  some_name_is lit l = inl e \/ exists b, some_name_is lit l = inr b.
Proof.
  induction l as [|m l IH]; simpl; [discriminate|].
  destruct (get_prop m "name") as [e'|n]; [intros [= <-]; now left|].
  destruct (is_str n lit); [intros _; right; eauto|].
  destruct (map_name l) as [e'|ns]; [|discriminate].
  intros [= <-]. now apply IH.
Qed.

(** X10: a listing with an entry whose [name] cannot be read ([null]
    among the models) is reported unhealthy, HTTP 503 with the
    [TypeError]'s message, even when the required model is listed before
    that entry. *)
Theorem health_unreadable_entry E w a l e :
  tags_result E w = Resolved a ->
  listed (ax_data a) = Some l ->
  map_name l = inl e ->
  fst (health_ollama E w)
    = inr {| res_status := 503; res_headers := [];
             res_body := Json (Obj [("status", Str "unhealthy");
                                    ("error", Str (err_message e));
                                    ("ollama_url", Str (ollamaUrl E))]) |}.
Proof.
  unfold tags_result, health_ollama, listed. intros H Hl Hn.
  cbn. unfold axios. rewrite H. cbn.
  destruct (get_prop (ax_data a) "models") as [e'|field]; [discriminate|]. cbn.
  destruct (js_or field (Arr [])); try discriminate.
  injection Hl as ->. cbn.
  destruct (some_before_map MODEL l e Hn) as [Hs|[b Hs]]; rewrite Hs; cbn;
    [reflexivity|]. now rewrite Hn.
Qed.

Lemma health_unreadable_entry_witness :
  fst (health_ollama (runtime_up listing_with_null (Obj [])) empty_world)
    = inr {| res_status := 503; res_headers := [];
             res_body := Json (Obj [("status", Str "unhealthy");
                                    ("error",
                                     Str "Cannot read properties of null (reading 'name')");
                                    ("ollama_url", Str "http://ollama:11434")]) |}.
Proof.
  apply (health_unreadable_entry (runtime_up listing_with_null (Obj [])) empty_world
           {| ax_status := 200; ax_data := listing_with_null |}
           [Obj [("name", Str MODEL)]; Null]
           (TypeError "Cannot read properties of null (reading 'name')"));
    reflexivity.
Defined.

(** X11: a [models] field that is truthy and not an array (a string, a
    number, an object) is reported unhealthy, HTTP 503 with the message
    [models.some is not a function]. *)
Theorem health_models_not_array E w a field :
  tags_result E w = Resolved a ->
  get_prop (ax_data a) "models" = inr field ->
  truthy field = true ->
  (forall l, field <> Arr l) ->
  fst (health_ollama E w)
    = inr {| res_status := 503; res_headers := [];
             res_body := Json (Obj [("status", Str "unhealthy");
                                    ("error", Str "models.some is not a function");
                                    ("ollama_url", Str (ollamaUrl E))]) |}.
Proof.
  unfold tags_result, health_ollama. intros H Hf Ht Hna.
  cbn. unfold axios. rewrite H. cbn. rewrite Hf. cbn.
  unfold js_or. rewrite Ht.
  destruct field; try reflexivity. exfalso. now apply (Hna elems).
Qed.

Lemma health_models_not_array_witness :
  fst (health_ollama (runtime_up (Obj [("models", Str "none")]) (Obj [])) empty_world)
    = inr {| res_status := 503; res_headers := [];
             res_body := Json (Obj [("status", Str "unhealthy");
                                    ("error", Str "models.some is not a function");
                                    ("ollama_url", Str "http://ollama:11434")]) |}.
Proof.
  apply (health_models_not_array (runtime_up (Obj [("models", Str "none")]) (Obj []))
           empty_world
           {| ax_status := 200; ax_data := Obj [("models", Str "none")] |}
           (Str "none")); try reflexivity.
  intros l. discriminate.
Defined.

Lemma map_name_length l : forall names,
  map_name l = inr names -> length names = length l.
Proof.
  induction l as [|m l IH]; intros names; simpl.
  - intros [= <-]. reflexivity.
  - destruct (get_prop m "name"); [discriminate|].
    destruct (map_name l) as [|ns]; [discriminate|].
    intros [= <-]. simpl. f_equal. now apply IH.
Qed.

(** X12: in a healthy report the count and the list agree:
    [models_available] is the number of entries of [models], one name per
    listed model, in the order of the listing. *)
Theorem health_count_matches E w a l names :
  tags_result E w = Resolved a ->
  listed (ax_data a) = Some l ->
  map_name l = inr names ->
  exists b,
    fst (health_ollama E w)
      = inr {| res_status := 200; res_headers := [];
               res_body := Json (Obj [("status", Str "healthy");
                                      ("ollama_url", Str (ollamaUrl E));
                                      ("models_available",
                                       Num (Z.of_nat (length names)));
                                      ("required_model_available", Bool b);
                                      ("models", Arr names)]) |} /\
    forall i m, nth_error l i = Some m ->
      exists n, get_prop m "name" = inr n /\ nth_error names i = Some n.
Proof.
  intros H Hl Hn.
  destruct (health_listed E w a l names H Hl Hn) as [b [Hb _]].
  exists b. split.
  - rewrite Hb, (map_name_length l names Hn). reflexivity.
  - clear - Hn. revert names Hn.
    induction l as [|m' l IH]; intros names Hn i m Hi.
    + destruct i; discriminate.
    + simpl in Hn. destruct (get_prop m' "name") as [|n'] eqn:Hg; [discriminate|].
      destruct (map_name l) as [|ns]; [discriminate|].
      injection Hn as <-. destruct i as [|i]; simpl in *.
      * injection Hi as <-. eauto.
      * now apply (IH ns eq_refl).
Qed.

Lemma health_count_matches_witness :
  exists b,
    fst (health_ollama
           (runtime_up (Obj [("models", Arr [Obj [("name", Str "mistral:7b")];
                                             Obj [("size", Num 5)]])]) (Obj []))
           empty_world)
      = inr {| res_status := 200; res_headers := [];
               res_body := Json (Obj [("status", Str "healthy");
                                      ("ollama_url", Str "http://ollama:11434");
                                      ("models_available", Num 2);
                                      ("required_model_available", Bool b);
                                      ("models", Arr [Str "mistral:7b"; Undefined])]) |}.
Proof.
  destruct (health_count_matches
              (runtime_up (Obj [("models", Arr [Obj [("name", Str "mistral:7b")];
                                                Obj [("size", Num 5)]])]) (Obj []))
              empty_world
              {| ax_status := 200;
                 ax_data := Obj [("models", Arr [Obj [("name", Str "mistral:7b")];
                                                 Obj [("size", Num 5)]])] |}
              [Obj [("name", Str "mistral:7b")]; Obj [("size", Num 5)]]
              [Str "mistral:7b"; Undefined] eq_refl eq_refl eq_refl) as [b [Hb _]].
  exists b. exact Hb.
Defined.

(** X13: the health handler makes one call, the listing request with its
    five-second timeout, answers with 200 or 503, and changes nothing
    else: the store and the salts are as they were. *)
Theorem health_one_call E w :
  exists r w',
    health_ollama E w = (inr r, w') /\
    (res_status r = 200 \/ res_status r = 503) /\
    calls w' = (calls w ++ [AxiosGet (ollamaUrl E ++ "/api/tags") (Some 5000)])%list /\
    users w' = users w /\ next_id w' = next_id w /\
    store_online w' = store_online w /\ salts w' = salts w.
Proof.
  unfold health_ollama. cbn. unfold axios.
  destruct (runtime E (calls w) _) as [a|e]; cbn;
    [|do 2 eexists; split; [reflexivity|]; cbn; repeat split; now right].
  destruct (get_prop (ax_data a) "models") as [e|field]; cbn;
    [do 2 eexists; split; [reflexivity|]; cbn; repeat split; now right|].
  destruct (js_or field (Arr [])) as [| |b|n|s|n|l|fs]; cbn;
    try (do 2 eexists; split; [reflexivity|]; cbn; repeat split; now right).
  destruct (some_name_is MODEL l); cbn;
    [do 2 eexists; split; [reflexivity|]; cbn; repeat split; now right|].
  destruct (map_name l); cbn;
    do 2 eexists; (split; [reflexivity|]); cbn; repeat split; auto.
Qed.

(** ** The deploy scripts that ask for the health report *)

Lemma append_assoc3 (a b c : string) : ((a ++ b) ++ c = a ++ (b ++ c))%string.
Proof. induction a as [|x a IH]; simpl; [reflexivity|now rewrite IH]. Qed.

Lemma prefix_app (pat s t : string) :
  prefix pat s = true -> prefix pat (s ++ t) = true.
Proof.
  revert s. induction pat as [|c pat IH]; intros s;
    [intros _; destruct (s ++ t)%string; reflexivity|].
  destruct s as [|d s]; simpl; [discriminate|].
  destruct (ascii_dec c d); [apply IH|discriminate].
Qed.

Lemma grep_q_app (pat s t : string) :
  grep_q pat s = true -> grep_q pat (s ++ t) = true.
Proof.
  induction s as [|c s IH]; simpl.
  - rewrite orb_false_r. intros H. destruct pat; [|discriminate].
    destruct t; reflexivity.
  - intros H. apply orb_true_iff in H as [H|H]; apply orb_true_iff.
    + left. now apply (prefix_app pat (String c s) t).
    + right. now apply IH.
Qed.

(** The text of an object starts with its first field when that field
    is a string. *)
Lemma stringify_first_field toHexString k s rest :
  exists tail,
    JSON_stringify toHexString (Obj ((k, Str s) :: rest))
    = Some (("{" ++ quote k ++ ":" ++ quote s) ++ tail).
Proof.
  cbn [JSON_stringify flat_map snd fst app].
  destruct (flat_map _ rest) as [|x parts]; cbn [join].
  - exists "}". now rewrite !append_assoc3.
  - exists ("," ++ join "," (x :: parts) ++ "}"). now rewrite !append_assoc3.
Qed.

(** The two shapes of a health answer. *)
Lemma health_shape E w :
  exists r,
    fst (health_ollama E w) = inr r /\
    ((exists l names b, r = healthy E l names b) \/
     (exists reason, r = unhealthy E reason /\
        forall e, tags_result E w = Rejected e -> reason = err_message e)).
Proof.
  unfold health_ollama, tags_result. cbn. unfold axios.
  destruct (runtime E (calls w) _) as [a|e]; cbn.
  - destruct (get_prop (ax_data a) "models") as [e|field]; cbn;
      [eexists; split; [reflexivity|]; right; eexists; split;
       [reflexivity|discriminate]|].
    destruct (js_or field (Arr [])) as [| |b|n|s|n|l|fs]; cbn;
      try (eexists; split; [reflexivity|]; right; eexists; split;
           [reflexivity|discriminate]).
    destruct (some_name_is MODEL l); cbn;
      [eexists; split; [reflexivity|]; right; eexists; split;
       [reflexivity|discriminate]|].
    destruct (map_name l); cbn; eexists; (split; [reflexivity|]).
    + right. eexists. split; [reflexivity|discriminate].
    + left. do 3 eexists. reflexivity.
  - eexists. split; [reflexivity|]. right. eexists. split; [reflexivity|].
    now intros e' [= <-].
Qed.

(** X14: the health check of [quick-deploy.sh] and [deploy-ai-chat.sh],
    [curl -s .../health/ollama | grep -q "healthy"], holds for every
    answer of the handler: the text of the unhealthy report has
    [healthy] in it as well.  It holds with the runtime down, where the
    answer is HTTP 503. *)
Theorem grep_healthy_always_matches toHexString E w :
  exists r,
    fst (health_ollama E w) = inr r /\
    grep_q "healthy" (curl_s toHexString (Some r)) = true /\
    (forall e, tags_result E w = Rejected e ->
       res_status r = 503 /\
       res_body r = Json (Obj [("status", Str "unhealthy");
                               ("error", Str (err_message e));
                               ("ollama_url", Str (ollamaUrl E))])).
Proof.
  destruct (health_shape E w) as [r [Hr Hs]]. exists r. split; [exact Hr|].
  destruct Hs as [[l [names [b ->]]]|[reason [-> Hreason]]].
  - split.
    + unfold curl_s, wire, healthy, json. cbn [res_body].
      destruct (stringify_first_field toHexString "status" "healthy"
                  [("ollama_url", Str (ollamaUrl E));
                   ("models_available", Num (Z.of_nat (length l)));
                   ("required_model_available", Bool b);
                   ("models", Arr names)]) as [tail ->].
      apply grep_q_app. reflexivity.
    + intros e He. exfalso.
      unfold health_ollama, tags_result in *. cbn in Hr. unfold axios in Hr.
      rewrite He in Hr. discriminate Hr.
  - split.
    + unfold curl_s, wire, unhealthy, json. cbn [res_body].
      destruct (stringify_first_field toHexString "status" "unhealthy"
                  [("error", Str reason); ("ollama_url", Str (ollamaUrl E))])
        as [tail ->].
      apply grep_q_app. reflexivity.
    + intros e He. rewrite (Hreason e He). split; reflexivity.
Qed.

Lemma grep_healthy_always_matches_witness :
  exists r,
    fst (health_ollama runtime_down empty_world) = inr r /\
    grep_q "healthy" (curl_s (fun _ => "65f0c0ffee0000000000a11c") (Some r)) = true /\
    res_status r = 503.
Proof.
  destruct (grep_healthy_always_matches (fun _ => "65f0c0ffee0000000000a11c")
              runtime_down empty_world) as [r [Hr [Hg Hdown]]].
  exists r. split; [exact Hr|]. split; [exact Hg|].
  apply (Hdown econnrefused). reflexivity.
Defined.

(** X15: the model check of [start.sh], [curl -f .../health/ollama],
    holds exactly when the handler answers 200.  It fails when the
    listing call fails, and it holds for every readable listing, with or
    without the required model in it. *)
Theorem curl_f_model_check E w :
  exists r,
    fst (health_ollama E w) = inr r /\
    (curl_f (Some r) = true <-> res_status r = 200) /\
    (forall e, tags_result E w = Rejected e -> curl_f (Some r) = false) /\
    (forall a l names,
       tags_result E w = Resolved a ->
       listed (ax_data a) = Some l ->
       map_name l = inr names ->
       curl_f (Some r) = true).
Proof.
  destruct (health_shape E w) as [r [Hr Hs]]. exists r. split; [exact Hr|].
  split; [|split].
  - destruct Hs as [[l [names [b ->]]]|[reason [-> _]]]; cbn; split;
      intros H; try reflexivity; discriminate H.
  - intros e He. rewrite (health_rejected E w e He) in Hr. now injection Hr as <-.
  - intros a l names H Hl Hn.
    destruct (health_listed E w a l names H Hl Hn) as [b [Hb _]].
    rewrite Hb in Hr. now injection Hr as <-.
Qed.

Lemma curl_f_model_check_witness :
  exists r,
    fst (health_ollama
           (runtime_up (Obj [("models", Arr [Obj [("name", Str "mistral:7b")]])])
              (Obj [])) empty_world) = inr r /\
    curl_f (Some r) = true.
Proof.
  destruct (curl_f_model_check
              (runtime_up (Obj [("models", Arr [Obj [("name", Str "mistral:7b")]])])
                 (Obj [])) empty_world) as [r [Hr [_ [_ Hok]]]].
  exists r. split; [exact Hr|].
  apply (Hok {| ax_status := 200;
                ax_data := Obj [("models", Arr [Obj [("name", Str "mistral:7b")]])] |}
             [Obj [("name", Str "mistral:7b")]] [Str "mistral:7b"]); reflexivity.
Defined.

(** ** More on signup and login *)

(** X16: signup only ever adds.  Whatever the request, the documents
    stored before are still there afterwards, unchanged and in the same
    order, followed by at most one new document; no call goes to the
    runtime and the store connection is left as it is. *)
Theorem signup_only_appends bcrypt_hash b w :
  exists added,
    users (snd (signup bcrypt_hash b w)) = (users w ++ added)%list /\
    (length added <= 1)%nat /\
    calls (snd (signup bcrypt_hash b w)) = calls w /\
    store_online (snd (signup bcrypt_hash b w)) = store_online w.
Proof.
  destruct (String.eqb_spec (text (su_username b)) "") as [Hu|Hu];
    [rewrite signup_incomplete; auto; exists []; cbn; rewrite app_nil_r; auto|].
  destruct (String.eqb_spec (text (su_email b)) "") as [He|He];
    [rewrite signup_incomplete; auto; exists []; cbn; rewrite app_nil_r; auto|].
  destruct (String.eqb_spec (text (su_password b)) "") as [Hp|Hp];
    [rewrite signup_incomplete; auto; exists []; cbn; rewrite app_nil_r; auto|].
  rewrite (signup_run bcrypt_hash b w Hu He Hp). cbv zeta.
  destruct (_ || _ || _ || _); cbn.
  - exists []. rewrite app_nil_r. auto.
  - eexists. split; [reflexivity|]. cbn. auto.
Qed.

(** A complete login with the store up: the lookup, then the password. *)
Lemma login_run bcrypt_compare b w :
  text (li_usernameOrEmail b) <> "" -> text (li_password b) <> "" ->
  store_online w = true ->
  login bcrypt_compare b w =
    match find (fun u => same_username (text (li_usernameOrEmail b)) u
                         || same_email (text (li_usernameOrEmail b)) u) (users w) with
    | Some u =>
        if bcrypt_compare (text (li_password b)) (passwordHash u)
        then (inr (json (Obj [("message", Str "Login successful");
                              ("userId", Oid (_id u));
                              ("username", Str (username u));
                              ("email", Str (email u));
                              ("phone", of_opt (phone u))]) res), w)
        else (inr invalid_credentials, w)
    | None => (inr invalid_credentials, w)
    end.
Proof.
  intros Hk Hp Hon. apply String.eqb_neq in Hk, Hp.
  unfold login, User_findOne. rewrite !truthy_of_opt, Hk, Hp. cbn. rewrite Hon. cbn.
  destruct (find _ (users w)) as [u|]; [|reflexivity].
  destruct (bcrypt_compare _ (passwordHash u)); reflexivity.
Qed.

(** A field that is [undefined] leaves no trace in the text. *)
Lemma stringify_undefined_last toHexString fields k :
  JSON_stringify toHexString (Obj (fields ++ [(k, Undefined)]))
  = JSON_stringify toHexString (Obj fields).
Proof.
  cbn [JSON_stringify]. rewrite flat_map_app. cbn. now rewrite app_nil_r.
Qed.

(** X17: a user stored without a phone number logs in to an answer that
    has no [phone] field at all: the text sent is that of the object with
    the other four fields. *)
Theorem login_omits_absent_phone toHexString bcrypt_compare b w u :
  text (li_usernameOrEmail b) <> "" -> text (li_password b) <> "" ->
  store_online w = true ->
  find (fun d => same_username (text (li_usernameOrEmail b)) d
                 || same_email (text (li_usernameOrEmail b)) d) (users w) = Some u ->
  bcrypt_compare (text (li_password b)) (passwordHash u) = true ->
  phone u = None ->
  exists r,
    fst (login bcrypt_compare b w) = inr r /\
    res_status r = 200 /\
    JSON_stringify toHexString
      (Obj [("message", Str "Login successful");
            ("userId", Oid (_id u));
            ("username", Str (username u));
            ("email", Str (email u))])
    = Some (wire toHexString r).
Proof.
  intros Hk Hp Hon Hf Hc Hph.
  rewrite (login_run bcrypt_compare b w Hk Hp Hon), Hf, Hc, Hph.
  eexists. split; [reflexivity|]. split; [reflexivity|].
  unfold wire, json. cbn [res_body of_opt].
  change [("message", Str "Login successful"); ("userId", Oid (_id u));
          ("username", Str (username u)); ("email", Str (email u));
          ("phone", Undefined)]
    with ([("message", Str "Login successful"); ("userId", Oid (_id u));
           ("username", Str (username u)); ("email", Str (email u))]
          ++ [("phone", Undefined)])%list.
  rewrite stringify_undefined_last. reflexivity.
Qed.

Lemma login_omits_absent_phone_witness :
  exists r,
    fst (login toy_compare {| li_usernameOrEmail := Some "alice";
                              li_password := Some "wonderland" |} one_user) = inr r /\
    res_status r = 200 /\
    JSON_stringify (fun _ => "65f0c0ffee0000000000a11c")
      (Obj [("message", Str "Login successful");
            ("userId", Oid 0);
            ("username", Str "alice");
            ("email", Str "alice@example.org")])
    = Some (wire (fun _ => "65f0c0ffee0000000000a11c") r).
Proof.
  apply (login_omits_absent_phone (fun _ => "65f0c0ffee0000000000a11c") toy_compare
           {| li_usernameOrEmail := Some "alice"; li_password := Some "wonderland" |}
           one_user alice); try reflexivity; discriminate.
Defined.
